(** * Batching, two-stage inference and result shaping of the
      nearest-neighbour recommendation pipeline

    Shallow embedding of [main.py] (class [Main]), [invokemodel.py]
    (class [InvokeModel]) and [s3filehandler.py] (class [S3FileHandler]).
    A pandas DataFrame that has its columns is a list of rows in index
    order, a cell being a text, an integer or NaN.  The remote services and the library calls whose results are not
    fixed by this code ([eval], [repr], [json.dumps], numpy, the S3
    handler, the clock) are the fields of a [World] record, so the embedded
    functions stay executable once a world is fixed. *)

From Stdlib Require Import String Ascii Arith Lia Permutation Bool ZArith
  DecimalString List.
Import ListNotations.
#[local] Set Warnings "-register-all".
Open Scope string_scope.
Open Scope list_scope.

(** ** Data model *)

(** One cell of the ingested dataset, as [read_csv] leaves it: a text, an
    integer, or the NaN of a blank cell.  Floats other than NaN are left
    out. *)
Inductive cell :=
| Text (s : string)
| Int (z : Z)
| Missing.

(** One row of the ingested dataset; [extra] holds the passthrough
    columns. *)
Record row := mkRow {
  item_id : cell;
  marketplace_id : cell;
  img_id : cell;
  product_type : cell;
  extra : list (string * cell)
}.

(** The same value, as [unique()] tells values apart: NaN is one value. *)
Definition cell_same (a b : cell) : bool :=
  match a, b with
  | Text s, Text t => s =? t
  | Int x, Int y => Z.eqb x y
  | Missing, Missing => true
  | _, _ => false
  end.

(** [a == b] on cells: NaN equals nothing, not even NaN. *)
Definition cell_eq (a b : cell) : bool :=
  match a with
  | Missing => false
  | _ => cell_same a b
  end.

(** [c.__str__()]. *)
Definition cell_str (c : cell) : string :=
  match c with
  | Text s => s
  | Int z => NilZero.string_of_int (Z.to_int z)
  | Missing => "nan"
  end.

(** A cell that is not NaN. *)
Definition present (c : cell) : Prop := c <> Missing.

Abbreviation DataFrame := (list row).

(** The status envelope [{'event_message': ..., 'reason': ...}]. *)
Record envelope := mkEnvelope {
  event_message : string;
  reason : string
}.

Definition FAILURE (why : string) : envelope := mkEnvelope "FAILURE" why.

(** ** Pandas operations used by the orchestrator *)

Module Pandas.

(** [Series.unique()]: the distinct values, in order of first appearance. *)
Fixpoint unique (l : list cell) : list cell :=
  match l with
  | [] => []
  | x :: t => x :: filter (fun y => negb (cell_same y x)) (unique t)
  end.

(** [df[df[col] == v]]: boolean-mask selection, index order kept.  A row
    whose cell is NaN is selected by no value. *)
Definition select (col : row -> cell) (v : cell) (df : DataFrame)
  : DataFrame :=
  filter (fun r => cell_eq (col r) v) df.

(** [df.iloc[lo:hi]] for [0 <= lo]. *)
Definition iloc (lo hi : nat) (df : DataFrame) : DataFrame :=
  firstn (hi - lo) (skipn lo df).

(** [df.iloc[-n:]] for [n > 0]: the last [n] rows. *)
Definition iloc_last (n : nat) (df : DataFrame) : DataFrame :=
  skipn (length df - n) df.

End Pandas.

(** ** The partitioning part of [Main.get_predictions] (lines 64-85) *)

Module Partitioner.
Import Pandas.

(** Lines 73-85: the list [dfs] built for one (product type, marketplace)
    frame.  Only meaningful for [batch_size > 0]; the caller raises
    [ZeroDivisionError] otherwise, as [//] does. *)
Definition dfs (batch_size : nat) (df_pt_mp : DataFrame) : list DataFrame :=
  let num_rows := length df_pt_mp in
  let num_splits := num_rows / batch_size in
  let remaining_rows := num_rows mod batch_size in
  let full :=
    map (fun i => iloc (i * batch_size) ((i + 1) * batch_size) df_pt_mp)
        (seq 0 num_splits) in
  if (0 <? remaining_rows)%nat
  then full ++ [iloc_last remaining_rows df_pt_mp]
  else full.

(** The frames [df_pt_mp] in the order the two nested loops visit them. *)
Definition groups (df : DataFrame) : list DataFrame :=
  flat_map
    (fun pt =>
       let df_pt := select product_type pt df in
       map (fun mp_id => select marketplace_id mp_id df_pt)
           (unique (map marketplace_id df_pt)))
    (unique (map product_type df)).

(** The (product type, marketplace) pairs in the same order. *)
Definition group_keys (df : DataFrame) : list (cell * cell) :=
  flat_map
    (fun pt =>
       map (fun mp_id => (pt, mp_id))
           (unique (map marketplace_id (select product_type pt df))))
    (unique (map product_type df)).

Definition has_key (k : cell * cell) (r : row) : bool :=
  cell_eq (product_type r) (fst k) && cell_eq (marketplace_id r) (snd k).

Definition is_missing (c : cell) : bool :=
  match c with
  | Missing => true
  | _ => false
  end.

(** The row has a value in both key columns. *)
Definition keyed (r : row) : bool :=
  negb (is_missing (product_type r)) && negb (is_missing (marketplace_id r)).

(** Every batch, in emission order. *)
Definition partition (batch_size : nat) (df : DataFrame) : list DataFrame :=
  flat_map (dfs batch_size) (groups df).

Definition homogeneous (b : DataFrame) : Prop :=
  forall r r', In r b -> In r' b ->
    product_type r = product_type r' /\ marketplace_id r = marketplace_id r'.

End Partitioner.

(** ** Python values, exceptions and outcomes *)

(** The values the response decoding can produce.  A float is kept as its
    binary64 bit pattern: the code stores and forwards numbers, it never
    computes with them. *)
Inductive pyval :=
| PNone
| PInt (z : Z)
| PFloat (bits : Z)
| PStr (s : string)
| PList (items : list pyval)
| PDict (items : list (string * pyval)).

(** The Python value of a cell, as [tolist()] and [iterrows()] give it;
    NaN is the float with the bits [0x7FF8000000000000]. *)
Definition cell_value (c : cell) : pyval :=
  match c with
  | Text s => PStr s
  | Int z => PInt z
  | Missing => PFloat 0x7FF8000000000000
  end.

(** Exceptions, by class.  [Exception d] is [Exception({...})] as this
    repository raises it; [OtherException] is any further subclass of
    [Exception]; [NonException] is a [BaseException] outside that hierarchy
    ([SystemExit], [KeyboardInterrupt]), which [except Exception] lets
    through. *)
Inductive exc :=
| NoCredentialsError (msg : string)
| KeyError (key : string)
| IndexError (msg : string)
| TypeError (msg : string)
| ZeroDivisionError (msg : string)
| Exception (payload : envelope)
| OtherException (cls msg : string)
| NonException (cls msg : string).

Definition exc_class (e : exc) : string :=
  match e with
  | NoCredentialsError _ => "NoCredentialsError"
  | KeyError _ => "KeyError"
  | IndexError _ => "IndexError"
  | TypeError _ => "TypeError"
  | ZeroDivisionError _ => "ZeroDivisionError"
  | Exception _ => "Exception"
  | OtherException cls _ => cls
  | NonException cls _ => cls
  end.

Definition is_Exception (e : exc) : bool :=
  match e with NonException _ _ => false | _ => true end.

Definition is_NoCredentialsError (e : exc) : bool :=
  match e with NoCredentialsError _ => true | _ => false end.

(** [KeyError] derives from [LookupError]. *)
Definition is_LookupError (e : exc) : bool :=
  match e with KeyError _ | IndexError _ => true | _ => false end.

Inductive outcome (A : Type) :=
| Returned (a : A)
| Raised (e : exc).
Arguments Returned {A} a.
Arguments Raised {A} e.

(** A function that hands back either a plain dict or a frame; callers
    test [type(x) == dict]. *)
Inductive dict_or (A : Type) :=
| IsDict (d : envelope)
| IsFrame (df : A).
Arguments IsDict {A} d.
Arguments IsFrame {A} df.

Definition envelope_dict (d : envelope) : pyval :=
  PDict [("event_message", PStr (event_message d)); ("reason", PStr (reason d))].

Fixpoint dict_get {V : Type} (d : list (string * V)) (k : string) : option V :=
  match d with
  | [] => None
  | (k', v) :: d' => if k' =? k then Some v else dict_get d' k
  end.

Arguments dict_get : simpl never.
Arguments String.eqb : simpl never.
Arguments String.append : simpl never.

(** ** Computations: an outcome and a threaded state *)

Module Py.

Definition M (S A : Type) : Type := S -> outcome A * S.

Definition ret {S A} (a : A) : M S A := fun s => (Returned a, s).

Definition raise {S A} (e : exc) : M S A := fun s => (Raised e, s).

Definition lift {S A} (o : outcome A) : M S A := fun s => (o, s).

Definition bind {S A B} (m : M S A) (k : A -> M S B) : M S B :=
  fun s =>
    match m s with
    | (Returned a, s') => k a s'
    | (Raised e, s') => (Raised e, s')
    end.

Definition get {S} : M S S := fun s => (Returned s, s).

Definition modify {S} (f : S -> S) : M S unit := fun s => (Returned tt, f s).

(** [try: body except ...]: [handler e] is the first matching clause, or
    [None] when no clause matches and [e] keeps propagating. *)
Definition try_except {S A} (body : M S A) (handler : exc -> option (M S A))
  : M S A :=
  fun s =>
    match body s with
    | (Returned a, s') => (Returned a, s')
    | (Raised e, s') =>
        match handler e with
        | Some h => h s'
        | None => (Raised e, s')
        end
    end.

(** [for x in l: body]. *)
Fixpoint for_each {S A} (l : list A) (body : A -> M S unit) : M S unit :=
  match l with
  | [] => ret tt
  | x :: l' => bind (body x) (fun _ => for_each l' body)
  end.

(** The same without state, for code that only computes. *)
Definition obind {A B} (o : outcome A) (k : A -> outcome B) : outcome B :=
  match o with
  | Returned a => k a
  | Raised e => Raised e
  end.

(** A loop that appends what each iteration produces. *)
Fixpoint collect {A B} (l : list A) (body : A -> outcome (list B))
  : outcome (list B) :=
  match l with
  | [] => Returned []
  | x :: l' =>
      obind (body x) (fun ys =>
      obind (collect l' body) (fun rest => Returned (ys ++ rest)))
  end.

End Py.

Declare Scope py_scope.
Delimit Scope py_scope with py.
Notation "x <- m ;; k" := (Py.bind m (fun x => k))
  (at level 61, m at next level, right associativity) : py_scope.
Notation "m ;; k" := (Py.bind m (fun _ => k))
  (at level 61, right associativity) : py_scope.
Notation "'let?' x := o 'in' k" := (Py.obind o (fun x => k))
  (at level 10, x pattern, k at level 200).

(** ** Subscripting and iteration of Python values *)

(** [v[k]] for a string key. *)
Definition getitem (v : pyval) (k : string) : outcome pyval :=
  match v with
  | PDict kv =>
      match dict_get kv k with
      | Some x => Returned x
      | None => Raised (KeyError k)
      end
  | PList _ => Raised (TypeError "list indices must be integers or slices, not str")
  | PStr _ => Raised (TypeError "string indices must be integers, not 'str'")
  | PNone => Raised (TypeError "'NoneType' object is not subscriptable")
  | PInt _ => Raised (TypeError "'int' object is not subscriptable")
  | PFloat _ => Raised (TypeError "'float' object is not subscriptable")
  end.

(** The items [iter(v)] yields. *)
Definition py_iter (v : pyval) : outcome (list pyval) :=
  match v with
  | PList l => Returned l
  | PStr s =>
      Returned (map (fun c => PStr (String c EmptyString)) (list_ascii_of_string s))
  | PDict kv => Returned (map (fun p => PStr (fst p)) kv)
  | PNone => Raised (TypeError "'NoneType' object is not iterable")
  | PInt _ => Raised (TypeError "'int' object is not iterable")
  | PFloat _ => Raised (TypeError "'float' object is not iterable")
  end.

(** [zip(a, b)], read to the end: it stops at the shorter argument. *)
Definition py_zip (a b : pyval) : outcome (list (pyval * pyval)) :=
  let? la := py_iter a in
  let? lb := py_iter b in
  Returned (combine la lb).

(** [str(n)] for a non-negative int. *)
Definition str_of_nat (n : nat) : string :=
  NilEmpty.string_of_uint (Nat.to_uint n).

(** ** The world outside the process *)

Record credentials := mkCredentials {
  AccessKeyId : string;
  SecretAccessKey : string;
  SessionToken : string
}.

Record request := mkRequest {
  EndpointName : string;
  Body : string;
  ContentType : string;
  Accept : string
}.

(** The remote calls attempted so far, oldest first. *)
Inductive event :=
| AssumeRole (RoleArn RoleSessionName : string)
| InvokeEndpoint (req : request).

Abbreviation trace := (list event).

(** The frame [get_files] hands back: [pd.DataFrame()] as it was created,
    without any column, or a table that has the dataset's columns. *)
Inductive dataset :=
| Columnless
| Table (rows : DataFrame).

Definition rows_of (d : dataset) : DataFrame :=
  match d with
  | Columnless => []
  | Table rows => rows
  end.

(** One flattened output row of the result shaper. *)
Record result_row := mkResult {
  out_item_id : cell;
  out_marketplace_id : cell;
  out_img_id : cell;
  out_product_type : cell;
  neighbor_item_ids : pyval;
  neighbors_dist : pyval
}.

(** One row of [Main.output_combined]: a result row, or a dataset row with
    the extra column the orchestrator writes, which it spells
    ['ErroStatus']. *)
Inductive combined_row :=
| Predicted (r : result_row)
| Tagged (r : row) (ErroStatus : string).

(** Everything the process calls but does not define.  The AWS calls see
    the remote calls made before them, so their answers may change from one
    call to the next. *)
Record World := mkWorld {
  (** [repr(v)], which is also [str(v)] for a dict or a list *)
  py_repr : pyval -> string;
  (** [eval(x)] *)
  py_eval : pyval -> outcome pyval;
  (** [np.array(v)] followed by [.tolist()] *)
  np_array_tolist : pyval -> outcome pyval;
  (** [json.dumps(v)] *)
  json_dumps : pyval -> outcome string;
  (** [sts_client.assume_role(...)] with the three credential fields read *)
  assume_role : trace -> string -> string -> outcome credentials;
  (** [sagemaker_client.invoke_endpoint(...)] with the body read and
      decoded as UTF-8 *)
  invoke_endpoint : trace -> credentials -> request -> outcome string;
  (** [S3FileHandler().get_files()], the dataset source *)
  get_files : outcome (dict_or dataset);
  (** [datetime.now().strftime("%d-%m-%Y")] *)
  today : string;
  (** [DataFrame.to_csv(path, index=False)] *)
  to_csv : string -> list combined_row -> outcome unit;
  (** [S3FileHandler().upload_file(path)] *)
  upload_file : string -> outcome envelope
}.

(** [str(e)]. *)
Definition py_str_exc (w : World) (e : exc) : string :=
  match e with
  | KeyError k => py_repr w (PStr k)
  | Exception d => py_repr w (envelope_dict d)
  | NoCredentialsError m | IndexError m | TypeError m | ZeroDivisionError m
  | OtherException _ m | NonException _ m => m
  end.

(** ** [invokemodel.py]: class [InvokeModel] *)

Module InvokeModel.
Import Py.
Local Open Scope py_scope.

Record t := mk {
  role_arn : string;
  external_account_id : string;
  mps_mapping : list (string * string);
  region : string;
  batch_size : nat;
  df_chunk : DataFrame;
  img_id_list : list cell;
  pt : cell;
  mp : string;
  prompt : pyval
}.

(** Lines 40-44. *)
Definition registry : list (string * string) :=
  [("000000", "US"); ("111111", "UK"); ("222222", "ES")].

(** [__init__] (lines 34-61).  [tolist()[0]] raises [IndexError] on an
    empty chunk and the registry lookup raises [KeyError]; neither is
    caught here. *)
Definition init (chunk : DataFrame) : outcome t :=
  let ids := map img_id chunk in
  match map product_type chunk with
  | [] => Raised (IndexError "list index out of range")
  | first_pt :: _ =>
      match map marketplace_id chunk with
      | [] => Raised (IndexError "list index out of range")
      | first_mp :: _ =>
          match dict_get registry (cell_str first_mp) with
          | None => Raised (KeyError (cell_str first_mp))
          | Some code =>
              Returned
                {| role_arn := "arn:aws:iam::123456789012:role/MyEC2Role";
                   external_account_id := "AWS_ACCOUNT_ID";
                   mps_mapping := registry;
                   region := "us-east-2";
                   batch_size := 32;
                   df_chunk := chunk;
                   img_id_list := ids;
                   pt := first_pt;
                   mp := code;
                   prompt := PDict [("physical_id", PList (map cell_value ids));
                                    ("pt", cell_value first_pt)] |}
          end
      end
  end.

(** The two remote calls, each recorded when it is attempted. *)
Definition call_assume_role (w : World) (arn session : string)
  : M trace credentials :=
  fun t => (assume_role w t arn session, t ++ [AssumeRole arn session]).

Definition call_invoke_endpoint (w : World) (c : credentials) (req : request)
  : M trace string :=
  fun t => (invoke_endpoint w t c req, t ++ [InvokeEndpoint req]).

(** Lines 110-115 and 133-138: the two request bodies. *)
Definition stage1_request (w : World) (self : t) : request :=
  {| EndpointName := "EndpointName";
     Body := py_repr w (prompt self);
     ContentType := "text/csv";
     Accept := "application/json" |}.

Definition input_artifact (self : t) (embeddings : pyval) : pyval :=
  PDict [("embedding", embeddings); ("pt", cell_value (pt self));
         ("marketplace", PStr (mp self))].

Definition stage2_request (body : string) : request :=
  {| EndpointName := "EndpointName";
     Body := body;
     ContentType := "application/json";
     Accept := "application/json" |}.

(** Lines 119-122 and the [tolist()] of line 126: the embeddings decoded
    from the first response. *)
Definition process_embeddings (w : World) (outp : string) : outcome pyval :=
  let? decoded := py_eval w (PStr outp) in
  let? field := getitem decoded "embeddings" in
  np_array_tolist w field.

(** Lines 142-148: the two neighbour values decoded from the second
    response, which is evaluated twice. *)
Definition process_neighbors (w : World) (outp : string)
  : outcome (pyval * pyval) :=
  let? inner := py_eval w (PStr outp) in
  let? outp := py_eval w inner in
  let? neighbor_item_ids := getitem outp "neighbor_item_ids" in
  let? neighbor_item_ids_distances :=
    getitem outp "neighbor_item_ids_distances" in
  Returned (neighbor_item_ids, neighbor_item_ids_distances).

(** The body of the [try] (lines 93-148). *)
Definition remote_chain (w : World) (self : t) : M trace (pyval * pyval) :=
  assumed_role <- call_assume_role w (role_arn self) "RoleSessionName" ;;
  outp <- call_invoke_endpoint w assumed_role (stage1_request w self) ;;
  embeddings <- lift (process_embeddings w outp) ;;
  body <- lift (json_dumps w (input_artifact self embeddings)) ;;
  outp <- call_invoke_endpoint w assumed_role (stage2_request body) ;;
  lift (process_neighbors w outp).

(** The two [except] clauses (lines 150-159). *)
Definition handlers (w : World) (e : exc)
  : option (M trace (pyval * pyval)) :=
  if is_NoCredentialsError e then
    Some (raise (Exception (FAILURE "Credentials could not be found")))
  else if is_Exception e then
    Some (raise (Exception
                   (FAILURE ("An error occurred: " ++ py_str_exc w e)%string)))
  else None.

(** Lines 162-177: the rows built from the two neighbour values. *)
Definition shape (chunk : DataFrame) (ids dists : pyval)
  : outcome (list result_row) :=
  let? pairs := py_zip ids dists in
  collect pairs (fun '(n_item_ids_list, distance_list) =>
    collect chunk (fun r =>
      let? inner := py_zip n_item_ids_list distance_list in
      Returned
        (map (fun '(n_item_id, distance) =>
                {| out_item_id := item_id r;
                   out_marketplace_id := marketplace_id r;
                   out_img_id := img_id r;
                   out_product_type := product_type r;
                   neighbor_item_ids := n_item_id;
                   neighbors_dist := distance |})
             inner))).

(** [invoke_model] (lines 63-178).  Creating the two boto3 client objects
    calls neither STS nor an endpoint and is taken not to raise. *)
Definition invoke_model (w : World) (self : t)
  : M trace (dict_or (list result_row)) :=
  if (batch_size self <? length (img_id_list self))%nat then
    raise (Exception
             (FAILURE ("the batch_size should be "
                       ++ str_of_nat (batch_size self))%string))
  else
    nb <- try_except (remote_chain w self) (handlers w) ;;
    output_df <- lift (shape (df_chunk self) (fst nb) (snd nb)) ;;
    ret (IsFrame output_df).

End InvokeModel.

(** ** [main.py]: class [Main] *)

Module Main.
Import Py Pandas.
Local Open Scope py_scope.

Record t := mk {
  test_pts : list string;
  output_combined : list combined_row;
  output_path : string;
  total_rows : nat;
  batch_size : nat;
  file_path : string;
  mps_mapping : list (string * string)
}.

(** [__init__] (lines 19-39). *)
Definition init : t :=
  {| test_pts := ["FLAT_SHEET"];
     output_combined := [];
     output_path := "/home/ec2-user/ml/datasets/output/";
     total_rows := 0;
     batch_size := 32;
     file_path := "";
     mps_mapping := InvokeModel.registry |}.

(** The object and the remote calls made so far. *)
Abbreviation state := (t * trace)%type.

Definition on_trace {A} (m : M trace A) : M state A :=
  fun s =>
    let '(o, tr) := m (snd s) in (o, (fst s, tr)).

Definition append_combined (rows : list combined_row) : M state unit :=
  modify (fun s : state =>
    (mk (test_pts (fst s)) (output_combined (fst s) ++ rows)
        (output_path (fst s)) (total_rows (fst s)) (batch_size (fst s))
        (file_path (fst s)) (mps_mapping (fst s)),
     snd s)).

Definition set_file_path (path : string) : M state unit :=
  modify (fun s : state =>
    (mk (test_pts (fst s)) (output_combined (fst s))
        (output_path (fst s)) (total_rows (fst s)) (batch_size (fst s))
        path (mps_mapping (fst s)),
     snd s)).

(** Lines 76-85 for the object's own [batch_size]; [//] by zero raises. *)
Definition split (df_pt_mp : DataFrame) : M state (list DataFrame) :=
  s <- get ;;
  if (batch_size (fst s) =? 0)%nat
  then raise (ZeroDivisionError "integer division or modulo by zero")
  else ret (Partitioner.dfs (batch_size (fst s)) df_pt_mp).

(** Lines 89-102: one batch. *)
Definition process_chunk (w : World) (chunk : DataFrame) : M state unit :=
  model_obj <- lift (InvokeModel.init chunk) ;;
  output <- on_trace (InvokeModel.invoke_model w model_obj) ;;
  match output with
  | IsDict d => append_combined (map (fun r => Tagged r (reason d)) chunk)
  | IsFrame df => append_combined (map Predicted df)
  end.

(** The value [get_predictions] returns: the dict of line 61 or the path. *)
Inductive returned :=
| ReturnedDict (d : envelope)
| ReturnedPath (path : string).

(** Lines 72-103: one (product type, marketplace) frame. *)
Definition group_loop (w : World) (df_pt : DataFrame) (mp_id : cell)
  : M state unit :=
  let df_pt_mp := select marketplace_id mp_id df_pt in
  dfs <- split df_pt_mp ;;
  for_each dfs (process_chunk w).

(** Lines 64-103: the two loops over product types and marketplaces. *)
Definition loops (w : World) (df : DataFrame) : M state unit :=
  for_each (unique (map product_type df)) (fun pt =>
    let df_pt := select product_type pt df in
    for_each (unique (map marketplace_id df_pt)) (group_loop w df_pt)).

(** The body of the [try] (lines 56-113). *)
Definition predictions_body (w : World) : M state returned :=
  df <- lift (get_files w) ;;
  match df with
  | IsDict d => ret (ReturnedDict d)
  | IsFrame Columnless => raise (KeyError "product_type")
  | IsFrame (Table df) =>
      loops w df ;;
      s <- get ;;
      let path := (output_path (fst s) ++ "output-" ++ today w ++ ".csv")%string in
      set_file_path path ;;
      s <- get ;;
      lift (to_csv w path (output_combined (fst s))) ;;
      ret (ReturnedPath path)
  end.

(** [get_predictions] (lines 41-119). *)
Definition get_predictions (w : World) : M state returned :=
  try_except (predictions_body w) (fun e =>
    if is_Exception e
    then Some (raise (Exception (FAILURE (py_str_exc w e))))
    else None).

(** [upload_s3] and [execute] (lines 121-141). *)
Definition upload_s3 (w : World) : M state envelope :=
  s <- get ;;
  lift (upload_file w (file_path (fst s))).

Definition execute (w : World) : M state envelope :=
  get_predictions w ;;
  upload_s3 w.

(** A combined result none of whose rows carries the error column. *)
Definition untagged (c : combined_row) : Prop :=
  match c with
  | Predicted _ => True
  | Tagged _ _ => False
  end.

Definition clean (s : state) : Prop := Forall untagged (output_combined (fst s)).

End Main.

(** ** Vocabulary for stating what the shaper returns *)

Module Shaper.

(** The row the innermost loop appends. *)
Definition emit (r : row) (nd : pyval * pyval) : result_row :=
  {| out_item_id := item_id r;
     out_marketplace_id := marketplace_id r;
     out_img_id := img_id r;
     out_product_type := product_type r;
     neighbor_item_ids := fst nd;
     neighbors_dist := snd nd |}.

(** Every neighbour pairing of one outer entry against every row. *)
Definition cross (chunk : DataFrame) (ab : list pyval * list pyval)
  : list result_row :=
  flat_map (fun r => map (emit r) (combine (fst ab) (snd ab))) chunk.

Definition lists (l : list (list pyval)) : pyval := PList (map PList l).

Fixpoint total (l : list nat) : nat :=
  match l with
  | [] => 0
  | n :: l' => n + total l'
  end.

(** Cutting both sides of a pairing to the shorter one. *)
Definition trim (ab : list pyval * list pyval) : list pyval * list pyval :=
  let k := Nat.min (length (fst ab)) (length (snd ab)) in
  (firstn k (fst ab), firstn k (snd ab)).

End Shaper.

(** ** A small world for running the embedding *)

Module Demo.

Definition dq : string := String (ascii_of_nat 34) EmptyString.

(** Text of a value whose strings need no escaping, with [q] as the quote:
    [repr] with a single quote, JSON with a double one. *)
Fixpoint show (q : string) (v : pyval) : string :=
  match v with
  | PNone => "None"
  | PInt z => NilZero.string_of_int (Z.to_int z)
  | PFloat _ => "nan"
  | PStr s => q ++ s ++ q
  | PList l => "[" ++ String.concat ", " (map (show q) l) ++ "]"
  | PDict kv =>
      "{" ++ String.concat ", "
               (map (fun p => q ++ fst p ++ q ++ ": " ++ show q (snd p)) kv)
          ++ "}"
  end%string.

Definition embeddings_text : string := "{'embeddings': [[1, 2]]}".

Definition neighbors_inner : string :=
  "{'neighbor_item_ids': [['N1', 'N2']], 'neighbor_item_ids_distances': [[3, 4]]}".

(** The neighbour payload arrives encoded twice: a string literal holding
    the text of a dict. *)
Definition neighbors_text : string := (dq ++ neighbors_inner ++ dq)%string.

Definition eval_table (v : pyval) : outcome pyval :=
  match v with
  | PStr s =>
      if s =? embeddings_text then
        Returned (PDict [("embeddings", PList [PList [PInt 1; PInt 2]])])
      else if s =? neighbors_text then Returned (PStr neighbors_inner)
      else if s =? neighbors_inner then
        Returned (PDict [("neighbor_item_ids", PList [PList [PStr "N1"; PStr "N2"]]);
                         ("neighbor_item_ids_distances",
                          PList [PList [PInt 3; PInt 4]])])
      else Raised (OtherException "SyntaxError" "invalid syntax (<string>, line 1)")
  | _ => Raised (TypeError "eval() arg 1 must be a string, bytes or code object")
  end.

Definition keys : credentials :=
  {| AccessKeyId := "AKIA"; SecretAccessKey := "secret"; SessionToken := "token" |}.

Definition role_calls (t : trace) : nat :=
  length (filter (fun e => match e with AssumeRole _ _ => true | _ => false end) t).

(** A world over dataset [ds] whose role is granted when [granted] holds of
    the calls made before, and whose embeddings endpoint answers [stage1]. *)
Definition world (ds : DataFrame) (granted : trace -> bool) (stage1 : string)
  : World :=
  {| py_repr := show "'";
     py_eval := eval_table;
     np_array_tolist := fun v => Returned v;
     json_dumps := fun v => Returned (show dq v);
     assume_role := fun t _ _ =>
       if granted t then Returned keys
       else Raised (NoCredentialsError "Unable to locate credentials");
     invoke_endpoint := fun _ _ req =>
       if ContentType req =? "text/csv" then Returned stage1
       else Returned neighbors_text;
     get_files := Returned (IsFrame (Table ds));
     today := "03-11-2026";
     to_csv := fun _ _ => Returned tt;
     upload_file := fun path =>
       Returned (mkEnvelope "SUCCESS"
                   ("File uploaded successfully to ml-v1/output/" ++ path)%string) |}.

Definition sheet (item mp img : string) : row :=
  {| item_id := Text item; marketplace_id := Text mp; img_id := Text img;
     product_type := Text "FLAT_SHEET"; extra := [] |}.

(** Three rows in three marketplaces: three batches of one row. *)
Definition three_batches : DataFrame :=
  [sheet "A1" "000000" "img-a"; sheet "B1" "111111" "img-b";
   sheet "C1" "222222" "img-c"].

Definition always (t : trace) : bool := true.
Definition never (t : trace) : bool := false.

(** The role is refused exactly at the second request for it. *)
Definition second_refused (t : trace) : bool := negb (role_calls t =? 1)%nat.

(** A batch of [n] rows of one product type and marketplace. *)
Definition uniform_chunk (n : nat) : DataFrame :=
  map (fun i => sheet ("item-" ++ str_of_nat i) "000000" ("img-" ++ str_of_nat i))%string
      (seq 0 n).

(** A batch of two rows with neighbour lists of 3 and 2 entries. *)
Definition pair_chunk : DataFrame :=
  [sheet "A1" "000000" "img-a"; sheet "B1" "000000" "img-b"].

Definition pair_ids : list (list pyval) :=
  [[PStr "A-n1"; PStr "A-n2"; PStr "A-n3"]; [PStr "B-n1"; PStr "B-n2"]].

Definition pair_dists : list (list pyval) :=
  [[PInt 1; PInt 2; PInt 3]; [PInt 4; PInt 5]].

(** Five rows in two marketplaces, interleaved. *)
Definition mixed : DataFrame :=
  [sheet "A1" "000000" "img-a"; sheet "B1" "111111" "img-b";
   sheet "C1" "000000" "img-c"; sheet "D1" "000000" "img-d";
   sheet "E1" "111111" "img-e"].

(** A batch whose second row has another product type and marketplace. *)
Definition uneven_chunk : DataFrame :=
  [sheet "A1" "000000" "img-a";
   {| item_id := Text "B1"; marketplace_id := Text "222222";
      img_id := Text "img-b"; product_type := Text "PILLOW"; extra := [] |}].

Definition unknown_row : row := sheet "Z1" "999999" "img-z".

Definition refused_second : World :=
  world three_batches second_refused embeddings_text.

(** Three batches of one row, the second of an unregistered marketplace. *)
Definition unknown_second : DataFrame :=
  [sheet "A1" "000000" "img-a"; unknown_row; sheet "C1" "111111" "img-c"].

Definition unknown_world : World :=
  world unknown_second always embeddings_text.

(** Two rows, the second with a blank product_type cell. *)
Definition blank_key : DataFrame :=
  [sheet "A1" "000000" "img-a";
   {| item_id := Text "B1"; marketplace_id := Text "000000";
      img_id := Text "img-b"; product_type := Missing; extra := [] |}].




Definition no_credentials_world : World :=
  world (uniform_chunk 1) never embeddings_text.

End Demo.

(** ** Python string methods used by the S3 handler *)

Module PyStr.

(** [s.split(sep)] for a separator of one character: never empty. *)
Fixpoint split (sep : ascii) (s : string) : list string :=
  match s with
  | EmptyString => [EmptyString]
  | String c t =>
      if Ascii.eqb c sep then EmptyString :: split sep t
      else match split sep t with
           | [] => [String c EmptyString]
           | piece :: pieces => String c piece :: pieces
           end
  end.

(** [s.split("/")[-1]]. *)
Definition last_segment (s : string) : string :=
  List.last (split "/"%char s) EmptyString.

(** [s.endswith(suffix)]. *)
Definition endswith (s suffix : string) : bool :=
  (String.length suffix <=? String.length s)%nat
  && (substring (String.length s - String.length suffix)
                (String.length suffix) s =? suffix).

(** The text has no ["/"] in it. *)
Fixpoint no_slash (s : string) : bool :=
  match s with
  | EmptyString => true
  | String c t => negb (Ascii.eqb c "/"%char) && no_slash t
  end.

End PyStr.

(** ** [s3filehandler.py]: class [S3FileHandler] *)

(** The calls made on the module's S3 client, oldest first. *)
Inductive s3_event :=
| ListObjectsV2 (Bucket Prefix : string)
| DownloadFile (Bucket Key Filename : string)
| CopyObject (Bucket Key SourceBucket SourceKey : string)
| UploadFile (Filename Bucket Key : string).

(** The S3 client and the CSV reader.  [list_objects_v2] gives the keys of
    the response's ['Contents'], or [None] when the response has no such
    entry. *)
Record S3 := mkS3 {
  list_objects_v2 : string -> string -> outcome (option (list string));
  download_file : string -> string -> string -> outcome unit;
  read_csv : string -> outcome DataFrame;
  copy_object : string -> string -> string -> string -> outcome unit;
  s3_upload_file : string -> string -> string -> outcome unit
}.

Module S3FileHandler.
Import Py.
Local Open Scope py_scope.

Record t := mk {
  ingest_bucket : string;
  folder_name : string;
  local_file_path : string;
  backup_bucket : string;
  backup_folder : string;
  upload_bucket : string;
  upload_folder : string;
  file_df : dataset
}.

(** [__init__] (lines 32-49). *)
Definition init : t :=
  {| ingest_bucket := "ml-v1";
     folder_name := "input/ingest/";
     local_file_path := "/home/ec2-user/ml/datasets/input/";
     backup_bucket := "ml-backup";
     backup_folder := "backup_input/";
     upload_bucket := "ml-v1";
     upload_folder := "output/";
     file_df := Columnless |}.

Abbreviation state := (t * list s3_event)%type.

(** A call on the client, recorded when it is attempted. *)
Definition call {A} (ev : s3_event) (result : outcome A) : M state A :=
  fun s => (result, (fst s, snd s ++ [ev])).

(** Line 92: [self.file_df = pd.concat([self.file_df, sheet_df], ...)];
    the result has the sheet's columns. *)
Definition append_file_df (sheet_df : DataFrame) : M state unit :=
  modify (fun s : state =>
    (mk (ingest_bucket (fst s)) (folder_name (fst s))
        (local_file_path (fst s)) (backup_bucket (fst s))
        (backup_folder (fst s)) (upload_bucket (fst s))
        (upload_folder (fst s)) (Table (rows_of (file_df (fst s)) ++ sheet_df)),
     snd s)).

(** Lines 79-105: one listed object. *)
Definition process_object (s3 : S3) (file_key : string) : M state unit :=
  self <- get ;;
  let self := fst self in
  let sheet_name := PyStr.last_segment file_key in
  if negb (PyStr.endswith sheet_name ".csv") then ret tt
  else
    let sheet_path := (local_file_path self ++ sheet_name)%string in
    call (DownloadFile (ingest_bucket self) file_key sheet_path)
         (download_file s3 (ingest_bucket self) file_key sheet_path) ;;
    sheet_df <- lift (read_csv s3 sheet_path) ;;
    append_file_df sheet_df ;;
    let source_key := (folder_name self ++ sheet_name)%string in
    let destination_key := (backup_folder self ++ sheet_name)%string in
    call (CopyObject (backup_bucket self) destination_key
                     (ingest_bucket self) source_key)
         (copy_object s3 (backup_bucket self) destination_key
                      (ingest_bucket self) source_key).

(** The body of the [try] of [get_files] (lines 68-112). *)
Definition get_files_body (s3 : S3) : M state (dict_or dataset) :=
  self <- get ;;
  let self := fst self in
  response <- call (ListObjectsV2 (ingest_bucket self) (folder_name self))
                   (list_objects_v2 s3 (ingest_bucket self) (folder_name self)) ;;
  match response with
  | None =>
      raise (Exception
               (FAILURE ("No files found in the folder: "
                         ++ folder_name self)%string))
  | Some contents =>
      for_each contents (process_object s3) ;;
      self <- get ;;
      ret (IsFrame (file_df (fst self)))
  end.

(** [get_files] (lines 51-118). *)
Definition get_files (w : World) (s3 : S3) : M state (dict_or dataset) :=
  try_except (get_files_body s3) (fun e =>
    if is_Exception e
    then Some (raise (Exception (FAILURE (py_str_exc w e))))
    else None).

(** The body of the [try] of [upload_file] (lines 134-139). *)
Definition upload_file_body (s3 : S3) (path : string) : M state envelope :=
  self <- get ;;
  let self := fst self in
  let upload_path := (upload_folder self ++ PyStr.last_segment path)%string in
  call (UploadFile path (upload_bucket self) upload_path)
       (s3_upload_file s3 path (upload_bucket self) upload_path) ;;
  ret (mkEnvelope "SUCCESS"
         ("File uploaded successfully to " ++ upload_bucket self ++ "/"
          ++ upload_path)%string).

(** [upload_file] (lines 120-143). *)
Definition upload_file (w : World) (s3 : S3) (path : string)
  : M state envelope :=
  try_except (upload_file_body s3 path) (fun e =>
    if is_Exception e
    then Some (raise (Exception (FAILURE (py_str_exc w e))))
    else None).

(** The listed keys that are read: those whose last segment ends in
    [.csv]. *)
Definition csv_keys (contents : list string) : list string :=
  filter (fun k => PyStr.endswith (PyStr.last_segment k) ".csv") contents.

(** The calls made for one such key when nothing fails. *)
Definition object_calls (self : t) (file_key : string) : list s3_event :=
  let sheet_name := PyStr.last_segment file_key in
  [DownloadFile (ingest_bucket self) file_key
                (local_file_path self ++ sheet_name)%string;
   CopyObject (backup_bucket self) (backup_folder self ++ sheet_name)%string
              (ingest_bucket self) (folder_name self ++ sheet_name)%string].

(** The rows read for one such key, none when reading fails. *)
Definition object_rows (s3 : S3) (self : t) (file_key : string) : DataFrame :=
  match read_csv s3 (local_file_path self ++ PyStr.last_segment file_key)%string with
  | Returned df => df
  | Raised _ => []
  end.

(** One listed object is handled without an exception. *)
Definition object_ok (s3 : S3) (self : t) (file_key : string) : Prop :=
  let sheet_name := PyStr.last_segment file_key in
  let sheet_path := (local_file_path self ++ sheet_name)%string in
  download_file s3 (ingest_bucket self) file_key sheet_path = Returned tt
  /\ (exists df, read_csv s3 sheet_path = Returned df)
  /\ copy_object s3 (backup_bucket self) (backup_folder self ++ sheet_name)%string
                 (ingest_bucket self) (folder_name self ++ sheet_name)%string
     = Returned tt.

(** The frame after the [sheets] have been concatenated to it one by one:
    unchanged when there is none, otherwise a table of all the rows. *)
Definition with_sheets (d : dataset) (sheets : list DataFrame) : dataset :=
  match sheets with
  | [] => d
  | _ :: _ => Table (rows_of d ++ concat sheets)
  end.

(** The state with the [sheets] concatenated to [file_df] and [calls]
    appended to the record of calls. *)
Definition grown (s : state) (sheets : list DataFrame)
    (calls : list s3_event) : state :=
  (mk (ingest_bucket (fst s)) (folder_name (fst s))
      (local_file_path (fst s)) (backup_bucket (fst s))
      (backup_folder (fst s)) (upload_bucket (fst s))
      (upload_folder (fst s)) (with_sheets (file_df (fst s)) sheets),
   snd s ++ calls).

End S3FileHandler.

(** ** The pipeline with its S3 handler plugged in *)

Module Pipeline.

(** [w] with the two collaborators of [Main] replaced by fresh
    [S3FileHandler()] objects over the client [s3]. *)
Definition connect (w : World) (s3 : S3) : World :=
  {| py_repr := py_repr w;
     py_eval := py_eval w;
     np_array_tolist := np_array_tolist w;
     json_dumps := json_dumps w;
     assume_role := assume_role w;
     invoke_endpoint := invoke_endpoint w;
     get_files := fst (S3FileHandler.get_files w s3 (S3FileHandler.init, []));
     today := today w;
     to_csv := to_csv w;
     upload_file := fun path =>
       fst (S3FileHandler.upload_file w s3 path (S3FileHandler.init, [])) |}.

(** The number of role requests among the remote calls. *)
Definition role_requests (tr : trace) : nat :=
  length (filter (fun e => match e with AssumeRole _ _ => true | _ => false end)
                 tr).

(** The object's settings other than what a run writes. *)
Definition same_settings (a b : Main.t) : Prop :=
  Main.test_pts a = Main.test_pts b
  /\ Main.output_path a = Main.output_path b
  /\ Main.total_rows a = Main.total_rows b
  /\ Main.batch_size a = Main.batch_size b
  /\ Main.mps_mapping a = Main.mps_mapping b.

(** The state [s] reached from [s0] by appending rows and remote calls,
    with the settings kept. *)
Definition extends (s0 s : Main.state) : Prop :=
  same_settings (fst s0) (fst s)
  /\ (exists rows,
        Main.output_combined (fst s) = Main.output_combined (fst s0) ++ rows)
  /\ (exists calls, snd s = snd s0 ++ calls).

(** Line 109: the state after [self.file_path] is assigned. *)
Definition with_path (s : Main.state) (path : string) : Main.state :=
  (Main.mk (Main.test_pts (fst s)) (Main.output_combined (fst s))
           (Main.output_path (fst s)) (Main.total_rows (fst s))
           (Main.batch_size (fst s)) path (Main.mps_mapping (fst s)),
   snd s).

(** Line 109: the name of the output file. *)
Definition dated_path (w : World) (s : Main.state) : string :=
  (Main.output_path (fst s) ++ "output-" ++ today w ++ ".csv")%string.

End Pipeline.

(** ** A small bucket for running the S3 handler *)

Module DemoS3.

Definition listing : list string :=
  ["input/ingest/"; "input/ingest/a.csv"; "input/ingest/notes.txt";
   "input/ingest/b.csv"].

Definition sheet_a : DataFrame :=
  [Demo.sheet "A1" "000000" "img-a"; Demo.sheet "A2" "000000" "img-a2"].

Definition sheet_b : DataFrame := [Demo.sheet "B1" "111111" "img-b"].

(** A bucket listing [contents] in which every call succeeds. *)
Definition bucket (contents : option (list string)) : S3 :=
  {| list_objects_v2 := fun _ _ => Returned contents;
     download_file := fun _ _ _ => Returned tt;
     read_csv := fun path =>
       if path =? "/home/ec2-user/ml/datasets/input/a.csv" then Returned sheet_a
       else if path =? "/home/ec2-user/ml/datasets/input/b.csv"
       then Returned sheet_b
       else Raised (OtherException "FileNotFoundError"
                      "[Errno 2] No such file or directory");
     copy_object := fun _ _ _ _ => Returned tt;
     s3_upload_file := fun _ _ _ => Returned tt |}.

Definition full : S3 := bucket (Some listing).
Definition bare : S3 := bucket None.

Definition healthy : World :=
  Demo.world [] Demo.always Demo.embeddings_text.

End DemoS3.

(** ** Further worlds and buckets for concrete runs *)

Module DemoRuns.

(** Three batches, every call answered. *)
Definition three_ok : World :=
  Demo.world Demo.three_batches Demo.always Demo.embeddings_text.

(** [w] with another [eval] and another answer to the role request. *)
Definition altered (w : World) (ev : pyval -> outcome pyval)
    (role : outcome credentials) : World :=
  {| py_repr := py_repr w;
     py_eval := ev;
     np_array_tolist := np_array_tolist w;
     json_dumps := json_dumps w;
     assume_role := fun _ _ _ => role;
     invoke_endpoint := invoke_endpoint w;
     get_files := get_files w;
     today := today w;
     to_csv := to_csv w;
     upload_file := upload_file w |}.

(** The role request is interrupted from the keyboard. *)
Definition interrupted : World :=
  altered three_ok Demo.eval_table (Raised (NonException "KeyboardInterrupt" "")).

(** Every response evaluates to an empty dict. *)
Definition keyless : World :=
  altered three_ok (fun _ => Returned (PDict [])) (Returned Demo.keys).

(** The neighbour response holds [None] for both values. *)
Definition null_eval (v : pyval) : outcome pyval :=
  match v with
  | PStr s =>
      if s =? Demo.embeddings_text then
        Returned (PDict [("embeddings", PList [PList [PInt 1; PInt 2]])])
      else if s =? Demo.neighbors_text then Returned (PStr Demo.neighbors_inner)
      else Returned (PDict [("neighbor_item_ids", PNone);
                            ("neighbor_item_ids_distances", PNone)])
  | _ => Raised (TypeError "eval() arg 1 must be a string, bytes or code object")
  end.

Definition null_neighbours : World :=
  altered three_ok null_eval (Returned Demo.keys).

(** The bucket of [DemoS3.full] in which [b.csv] cannot be downloaded. *)
Definition broken_download : S3 :=
  {| list_objects_v2 := list_objects_v2 DemoS3.full;
     download_file := fun _ key _ =>
       if key =? "input/ingest/b.csv"
       then Raised (OtherException "ClientError"
                      "An error occurred (404) when calling the HeadObject operation: Not Found")
       else Returned tt;
     read_csv := read_csv DemoS3.full;
     copy_object := copy_object DemoS3.full;
     s3_upload_file := s3_upload_file DemoS3.full |}.

(** A folder holding its placeholder and a text file only. *)
Definition no_csv : S3 :=
  DemoS3.bucket (Some ["input/ingest/"; "input/ingest/notes.txt"]).

(** The pipeline over the full bucket, over the one without a sheet, and
    over the bare one. *)
Definition fed : World := Pipeline.connect DemoS3.healthy DemoS3.full.
Definition unfed : World := Pipeline.connect DemoS3.healthy no_csv.
Definition starved : World := Pipeline.connect DemoS3.healthy DemoS3.bare.

End DemoRuns.

(** ** Facts about lists used below *)

Section ListFacts.
Context {A : Type}.

Lemma filter_disjoint_perm (p q : A -> bool) (l : list A) :
  (forall x, In x l -> p x = true -> q x = false) ->
  Permutation (filter p l ++ filter q l) (filter (fun x => p x || q x) l).
Proof.
  induction l as [|a l IH]; intros D; simpl; [constructor|].
  assert (IH' := IH (fun x Hx => D x (or_intror Hx))).
  destruct (p a) eqn:Pa; simpl.
  - rewrite (D a (or_introl eq_refl) Pa). now constructor.
  - destruct (q a); simpl; [|exact IH'].
    symmetry. apply Permutation_cons_app. now symmetry.
Qed.

Lemma filter_all_true (p : A -> bool) (l : list A) :
  (forall x, In x l -> p x = true) -> filter p l = l.
Proof.
  induction l as [|a l IH]; intros H; simpl; [reflexivity|].
  rewrite (H a (or_introl eq_refl)). f_equal. apply IH. intros; apply H; now right.
Qed.

Lemma filter_filter_and (p q : A -> bool) (l : list A) :
  filter q (filter p l) = filter (fun x => p x && q x) l.
Proof.
  induction l as [|a l IH]; simpl; [reflexivity|].
  destruct (p a); simpl; [destruct (q a)|]; now rewrite IH.
Qed.

(** Cutting a list into [n] consecutive chunks of [b] elements and then the
    rest gives the list back. *)
Lemma chunks_concat (b : nat) (l : list A) (n : nat) :
  n * b <= length l ->
  concat (map (fun i => firstn b (skipn (i * b) l)) (seq 0 n))
    = firstn (n * b) l.
Proof.
  induction n as [|n IH]; intros H; [reflexivity|].
  rewrite seq_S, map_app, concat_app, IH by lia. simpl.
  rewrite app_nil_r.
  replace (b + n * b) with (n * b + b) by lia.
  rewrite <- (firstn_skipn (n * b) (firstn (n * b + b) l)).
  rewrite firstn_firstn, Nat.min_l by lia. f_equal.
  rewrite skipn_firstn_comm. f_equal. lia.
Qed.

Lemma concat_flat_map {B : Type} (f : B -> list (list A)) (l : list B) :
  concat (flat_map f l) = flat_map (fun x => concat (f x)) l.
Proof.
  induction l as [|b l IH]; simpl; [reflexivity|].
  now rewrite concat_app, IH.
Qed.

Lemma flat_map_perm_pointwise {B : Type} (f g : B -> list A) (l : list B) :
  (forall x, Permutation (f x) (g x)) ->
  Permutation (flat_map f l) (flat_map g l).
Proof.
  intros H. induction l as [|b l IH]; simpl; [constructor|].
  now apply Permutation_app.
Qed.

Lemma in_firstn_inv (n : nat) (l : list A) (x : A) :
  In x (firstn n l) -> In x l.
Proof.
  intros H. rewrite <- (firstn_skipn n l). apply in_or_app. now left.
Qed.

Lemma in_skipn_inv (n : nat) (l : list A) (x : A) :
  In x (skipn n l) -> In x l.
Proof.
  intros H. rewrite <- (firstn_skipn n l). apply in_or_app. now right.
Qed.

Lemma filter_flat_map {B : Type} (q : A -> bool) (f : B -> list A)
    (l : list B) :
  filter q (flat_map f l) = flat_map (fun x => filter q (f x)) l.
Proof.
  induction l as [|b l IH]; simpl; [reflexivity|].
  now rewrite filter_app, IH.
Qed.

Lemma filter_perm (q : A -> bool) (l l' : list A) :
  Permutation l l' -> Permutation (filter q l) (filter q l').
Proof.
  induction 1 as [|x l l' _ IH|x y l|l l' l'' _ IH1 _ IH2]; simpl.
  - constructor.
  - destruct (q x); [now constructor|exact IH].
  - destruct (q x), (q y); try reflexivity. constructor.
  - etransitivity; eassumption.
Qed.

End ListFacts.

Module PartitionerFacts.
Import Pandas Partitioner.

Lemma cell_same_eq (a b : cell) : cell_same a b = true <-> a = b.
Proof.
  destruct a as [s|x|], b as [t|y|]; simpl; split; intros H;
    try discriminate; try reflexivity.
  - apply String.eqb_eq in H. now subst.
  - injection H as ->. apply String.eqb_refl.
  - apply Z.eqb_eq in H. now subst.
  - injection H as ->. apply Z.eqb_refl.
Qed.

Lemma cell_same_refl (a : cell) : cell_same a a = true.
Proof. now apply cell_same_eq. Qed.

Lemma cell_eq_eq (a b : cell) : cell_eq a b = true -> a = b.
Proof.
  unfold cell_eq. destruct a; [apply cell_same_eq|apply cell_same_eq|].
  discriminate.
Qed.

Lemma cell_eq_refl (a : cell) : present a -> cell_eq a a = true.
Proof.
  unfold present, cell_eq. destruct a; intros H;
    [apply cell_same_refl|apply cell_same_refl|congruence].
Qed.

Lemma cell_dec (a b : cell) : {a = b} + {a <> b}.
Proof.
  destruct (cell_same a b) eqn:E.
  - left. now apply cell_same_eq.
  - right. intros H. apply cell_same_eq in H. congruence.
Qed.

Lemma unique_In (l : list cell) (x : cell) : In x (unique l) <-> In x l.
Proof.
  induction l as [|a l IH]; simpl; [tauto|].
  rewrite filter_In, IH, negb_true_iff.
  destruct (cell_dec a x) as [->|N]; [tauto|].
  split; [tauto|]. intros [?|?]; [tauto|]. right. split; [assumption|].
  destruct (cell_same x a) eqn:E; [|reflexivity].
  apply cell_same_eq in E. congruence.
Qed.

Lemma unique_NoDup (l : list cell) : NoDup (unique l).
Proof.
  induction l as [|a l IH]; simpl; constructor.
  - rewrite filter_In, cell_same_refl. simpl. intros [_ H]. discriminate.
  - now apply NoDup_filter.
Qed.

(** Selecting by each of several distinct values rearranges the selected
    rows without repeating one. *)
Lemma select_cover (col : row -> cell) (df : DataFrame) (vs : list cell) :
  NoDup vs ->
  Permutation (flat_map (fun v => select col v df) vs)
              (filter (fun r => existsb (cell_eq (col r)) vs) df).
Proof.
  induction 1 as [|v vs Hv Hnd IH]; simpl.
  - induction df; simpl; auto.
  - etransitivity; [apply Permutation_app_head, IH|].
    unfold select. apply filter_disjoint_perm.
    intros r _ E. apply cell_eq_eq in E.
    destruct (existsb _ vs) eqn:X; [|reflexivity].
    apply existsb_exists in X. destruct X as (w & Hw & Ew).
    apply cell_eq_eq in Ew. congruence.
Qed.

(** Selecting by every value that occurs keeps exactly the rows whose
    cell is not NaN. *)
Lemma select_unique_present (col : row -> cell) (df : DataFrame) :
  Permutation (flat_map (fun v => select col v df) (unique (map col df)))
              (filter (fun r => negb (is_missing (col r))) df).
Proof.
  etransitivity; [apply select_cover, unique_NoDup|].
  erewrite filter_ext_in; [reflexivity|].
  intros r Hr. cbv beta. destruct (col r) as [t|z|] eqn:E; simpl.
  - apply existsb_exists. exists (Text t). split.
    + apply unique_In. rewrite <- E. now apply in_map.
    + apply cell_same_refl.
  - apply existsb_exists. exists (Int z). split.
    + apply unique_In. rewrite <- E. now apply in_map.
    + apply cell_same_refl.
  - induction (unique (map col df)); simpl; auto.
Qed.

Lemma groups_as_keys (df : DataFrame) :
  groups df = map (fun k => filter (has_key k) df) (group_keys df).
Proof.
  unfold groups, group_keys.
  induction (unique (map product_type df)) as [|pt pts IH]; simpl; [reflexivity|].
  rewrite map_app, IH. f_equal.
  rewrite map_map. apply map_ext. intros mp. unfold select.
  now rewrite filter_filter_and.
Qed.

Lemma group_keys_NoDup (df : DataFrame) : NoDup (group_keys df).
Proof.
  unfold group_keys.
  assert (H := unique_NoDup (map product_type df)).
  induction H as [|pt pts Hpt Hnd IH]; simpl; [constructor|].
  apply NoDup_app.
  - apply Finite.Injective_map_NoDup; [|apply unique_NoDup].
    intros a b E. congruence.
  - exact IH.
  - intros [p m] H1 H2. apply in_map_iff in H1. destruct H1 as (x & E & _).
    apply in_flat_map in H2. destruct H2 as (pt' & Hin & H2).
    apply in_map_iff in H2. destruct H2 as (y & E' & _). congruence.
Qed.

(** The groups hold exactly the rows that have both keys. *)
Lemma groups_perm (df : DataFrame) :
  Permutation (concat (groups df)) (filter keyed df).
Proof.
  unfold groups. rewrite concat_flat_map.
  transitivity
    (flat_map (fun pt => filter (fun r => negb (is_missing (marketplace_id r)))
                                (select product_type pt df))
              (unique (map product_type df))).
  - apply flat_map_perm_pointwise. intros pt.
    rewrite <- flat_map_concat_map. apply select_unique_present.
  - rewrite <- filter_flat_map.
    etransitivity; [apply filter_perm, select_unique_present|].
    rewrite filter_filter_and. reflexivity.
Qed.

Lemma keyed_all (df : DataFrame) :
  Forall (fun r => present (product_type r) /\ present (marketplace_id r)) df ->
  filter keyed df = df.
Proof.
  intros P. apply filter_all_true. rewrite Forall_forall in P.
  intros r Hr. destruct (P r Hr) as [Hp Hm]. unfold keyed, present in *.
  destruct (product_type r), (marketplace_id r); simpl; congruence.
Qed.

Lemma iloc_chunk (B i : nat) (g : DataFrame) :
  iloc (i * B) ((i + 1) * B) g = firstn B (skipn (i * B) g).
Proof. unfold iloc. f_equal. lia. Qed.

Lemma dfs_full (B : nat) (g : DataFrame) :
  map (fun i => iloc (i * B) ((i + 1) * B) g) (seq 0 (length g / B))
    = map (fun i => firstn B (skipn (i * B) g)) (seq 0 (length g / B)).
Proof. apply map_ext. intros. apply iloc_chunk. Qed.

Lemma dfs_concat (B : nat) (g : DataFrame) : 0 < B -> concat (dfs B g) = g.
Proof.
  intros HB. unfold dfs. rewrite dfs_full.
  assert (E := Nat.div_mod_eq (length g) B).
  assert (L : length g / B * B <= length g) by nia.
  destruct (Nat.ltb_spec 0 (length g mod B)) as [R|R].
  - rewrite concat_app, chunks_concat by exact L. simpl. rewrite app_nil_r.
    unfold iloc_last.
    replace (length g - length g mod B) with (length g / B * B) by nia.
    apply firstn_skipn.
  - rewrite chunks_concat by exact L. apply firstn_all2. nia.
Qed.

Lemma dfs_shape (B : nat) (g : DataFrame) :
  0 < B ->
  exists full rest,
    dfs B g = full ++ rest
    /\ length full = length g / B
    /\ Forall (fun b => length b = B) full
    /\ (length g mod B = 0 -> rest = [])
    /\ (0 < length g mod B ->
        exists last, rest = [last] /\ length last = length g mod B).
Proof.
  intros HB.
  assert (E := Nat.div_mod_eq (length g) B).
  set (full := map (fun i => iloc (i * B) ((i + 1) * B) g)
                   (seq 0 (length g / B))).
  assert (HF : Forall (fun b => length b = B) full).
  { apply Forall_forall. intros b Hb. apply in_map_iff in Hb.
    destruct Hb as (i & <- & Hi). apply in_seq in Hi.
    rewrite iloc_chunk, length_firstn, length_skipn. nia. }
  assert (HL : length full = length g / B).
  { unfold full. now rewrite length_map, length_seq. }
  unfold dfs. fold full.
  destruct (Nat.ltb_spec 0 (length g mod B)) as [R|R].
  - exists full, [iloc_last (length g mod B) g]. repeat split; auto.
    + lia.
    + intros _. eexists. split; [reflexivity|].
      unfold iloc_last. rewrite length_skipn. lia.
  - exists full, []. rewrite app_nil_r. repeat split; auto. lia.
Qed.

Lemma dfs_bounded (B : nat) (g b : DataFrame) :
  0 < B -> In b (dfs B g) -> length b <= B.
Proof.
  intros HB Hb. destruct (dfs_shape B g HB) as (full & rest & E & _ & F & Z & P).
  rewrite E in Hb. apply in_app_or in Hb. destruct Hb as [Hb|Hb].
  - rewrite Forall_forall in F. rewrite (F b Hb). lia.
  - destruct (Nat.eq_dec (length g mod B) 0) as [z|z].
    + rewrite (Z z) in Hb. destruct Hb.
    + destruct P as (last & -> & L); [lia|]. destruct Hb as [<-|[]].
      rewrite L. apply Nat.lt_le_incl, Nat.mod_upper_bound. lia.
Qed.

Lemma dfs_rows (B : nat) (g b : DataFrame) (r : row) :
  In b (dfs B g) -> In r b -> In r g.
Proof.
  unfold dfs. intros Hb Hr.
  assert (C : In b (map (fun i => iloc (i * B) ((i + 1) * B) g)
                        (seq 0 (length g / B)))
              \/ b = iloc_last (length g mod B) g).
  { destruct (0 <? length g mod B)%nat; [|now left].
    apply in_app_or in Hb. destruct Hb as [?|[<-|[]]]; auto. }
  destruct C as [C| ->].
  - apply in_map_iff in C. destruct C as (i & <- & _).
    unfold iloc in Hr. eapply in_skipn_inv, in_firstn_inv, Hr.
  - eapply in_skipn_inv, Hr.
Qed.

Lemma group_homogeneous (k : cell * cell) (df : DataFrame) (r : row) :
  In r (filter (has_key k) df) ->
  product_type r = fst k /\ marketplace_id r = snd k.
Proof.
  rewrite filter_In. unfold has_key. intros [_ H].
  apply andb_true_iff in H. destruct H as [H1 H2].
  split; now apply cell_eq_eq.
Qed.

End PartitionerFacts.

(** ** Theorems *)

(** C4, as amended.  For a positive batch size the batches, concatenated
    in emission order, are the rows of the dataset that have a value in
    both key columns, rearranged (none of them lost or repeated); when no
    key cell is NaN that is the whole dataset.  They are the
    (product_type, marketplace_id) groups one after the other, each group
    being the dataset's rows with that key in their original order and
    each key occurring once.  A group of N rows gives N / B batches of
    exactly B rows and then, only when N mod B is not zero, one batch of
    N mod B rows; cutting a group loses no order.  No batch has more than
    B rows and every batch has one product type and one marketplace. *)
Theorem partition_covers_groups_in_bounded_batches
    (B : nat) (D : DataFrame) (HB : 0 < B) :
  let bs := Partitioner.partition B D in
  let keys := Partitioner.group_keys D in
  let group := fun k => filter (Partitioner.has_key k) D in
  Permutation (concat bs) (filter Partitioner.keyed D)
  /\ (Forall (fun r => present (product_type r) /\ present (marketplace_id r)) D
      -> Permutation (concat bs) D)
  /\ NoDup keys
  /\ concat bs = flat_map group keys
  /\ bs = flat_map (fun k => Partitioner.dfs B (group k)) keys
  /\ (forall k, concat (Partitioner.dfs B (group k)) = group k)
  /\ (forall k, exists full rest,
        Partitioner.dfs B (group k) = full ++ rest
        /\ length full = length (group k) / B
        /\ Forall (fun b => length b = B) full
        /\ (length (group k) mod B = 0 -> rest = [])
        /\ (0 < length (group k) mod B ->
            exists last, rest = [last]
                         /\ length last = length (group k) mod B))
  /\ Forall (fun b => length b <= B /\ Partitioner.homogeneous b) bs.
Proof.
  intros bs keys group.
  assert (Ebs : bs = flat_map (fun k => Partitioner.dfs B (group k)) keys).
  { unfold bs, Partitioner.partition.
    rewrite PartitionerFacts.groups_as_keys, flat_map_concat_map, map_map.
    now rewrite <- flat_map_concat_map. }
  assert (Ecat : concat bs = concat (Partitioner.groups D)).
  { unfold bs, Partitioner.partition. rewrite concat_flat_map.
    rewrite flat_map_concat_map. f_equal.
    erewrite map_ext; [apply map_id|].
    intros g. now apply PartitionerFacts.dfs_concat. }
  split; [|split; [|split; [|split; [|split; [|split; [|split]]]]]].
  - rewrite Ecat. apply PartitionerFacts.groups_perm.
  - intros P. rewrite Ecat.
    etransitivity; [apply PartitionerFacts.groups_perm|].
    now rewrite (PartitionerFacts.keyed_all D P).
  - apply PartitionerFacts.group_keys_NoDup.
  - rewrite Ecat, PartitionerFacts.groups_as_keys.
    now rewrite <- flat_map_concat_map.
  - exact Ebs.
  - intros k. now apply PartitionerFacts.dfs_concat.
  - intros k. now apply PartitionerFacts.dfs_shape.
  - rewrite Ebs. apply Forall_forall. intros b Hb.
    apply in_flat_map in Hb. destruct Hb as (k & _ & Hb). split.
    + eapply PartitionerFacts.dfs_bounded; eauto.
    + intros r r' Hr Hr'.
      apply (PartitionerFacts.dfs_rows _ _ _ _ Hb) in Hr, Hr'.
      apply PartitionerFacts.group_homogeneous in Hr, Hr'.
      destruct Hr as [-> ->], Hr' as [-> ->]. now split.
Qed.


(** ** The result shaper *)

Module ShaperFacts.
Import Py InvokeModel Shaper.

Lemma collect_pure {A B} (f : A -> list B) (l : list A) :
  collect l (fun x => Returned (f x)) = Returned (flat_map f l).
Proof.
  induction l as [|a l IH]; simpl; [reflexivity|]. now rewrite IH.
Qed.

Lemma collect_ext {A B} (f g : A -> outcome (list B)) (l : list A) :
  (forall x, In x l -> f x = g x) -> collect l f = collect l g.
Proof.
  induction l as [|a l IH]; intros H; simpl; [reflexivity|].
  rewrite (H a (or_introl eq_refl)), IH; [reflexivity|].
  intros; apply H; now right.
Qed.

Lemma combine_lists (a b : list (list pyval)) :
  combine (map PList a) (map PList b)
    = map (fun ab => (PList (fst ab), PList (snd ab))) (combine a b).
Proof.
  revert b. induction a as [|x a IH]; intros [|y b]; simpl; try reflexivity.
  now rewrite IH.
Qed.

(** On lists of lists the shaper returns, and what it returns is the outer
    loop over paired entries around the loop over all rows. *)
Lemma shape_lists (chunk : DataFrame) (ids dists : list (list pyval)) :
  shape chunk (lists ids) (lists dists)
    = Returned (flat_map (cross chunk) (combine ids dists)).
Proof.
  unfold shape, lists, py_zip. simpl. rewrite combine_lists.
  induction (combine ids dists) as [|[a b] l IH]; simpl; [reflexivity|].
  rewrite IH. unfold cross at 1. simpl.
  rewrite (collect_ext _ (fun r => Returned (map (emit r) (combine a b)))).
  - now rewrite collect_pure.
  - intros r _. f_equal. apply map_ext. now intros [n d].
Qed.

Lemma cross_length (chunk : DataFrame) (ab : list pyval * list pyval) :
  length (cross chunk ab)
    = length chunk * Nat.min (length (fst ab)) (length (snd ab)).
Proof.
  unfold cross. induction chunk as [|r chunk IH]; simpl; [reflexivity|].
  now rewrite length_app, IH, length_map, length_combine.
Qed.

Lemma shaped_length (chunk : DataFrame) (l : list (list pyval * list pyval)) :
  length (flat_map (cross chunk) l)
    = length chunk
      * total (map (fun ab => Nat.min (length (fst ab)) (length (snd ab))) l).
Proof.
  induction l as [|ab l IH]; simpl; [lia|].
  rewrite length_app, IH, cross_length. lia.
Qed.

Lemma total_min_equal (ids dists : list (list pyval)) :
  Forall2 (fun a b => length a = length b) ids dists ->
  total (map (fun ab => Nat.min (length (fst ab)) (length (snd ab)))
             (combine ids dists))
    = total (map (@length pyval) ids).
Proof.
  induction 1 as [|a b ids dists E _ IH]; simpl; [reflexivity|].
  rewrite IH, E. lia.
Qed.

Lemma combine_firstn_min {A B} (a : list A) (b : list B) :
  combine (firstn (Nat.min (length a) (length b)) a)
          (firstn (Nat.min (length a) (length b)) b)
    = combine a b.
Proof.
  revert b. induction a as [|x a IH]; intros [|y b]; simpl; try reflexivity.
  now rewrite IH.
Qed.

Lemma combine_fst_firstn {A B} (a : list A) (b : list B) :
  map fst (combine a b) = firstn (Nat.min (length a) (length b)) a.
Proof.
  revert b. induction a as [|x a IH]; intros [|y b]; simpl; try reflexivity.
  now rewrite IH.
Qed.

Lemma combine_snd_firstn {A B} (a : list A) (b : list B) :
  map snd (combine a b) = firstn (Nat.min (length a) (length b)) b.
Proof.
  revert b. induction a as [|x a IH]; intros [|y b]; simpl; try reflexivity.
  now rewrite IH.
Qed.

Lemma combine_map_fst_snd {A B} (l : list (A * B)) :
  combine (map fst l) (map snd l) = l.
Proof.
  induction l as [|[a b] l IH]; simpl; [reflexivity|]. now rewrite IH.
Qed.

Lemma cross_trim (chunk : DataFrame) (ab : list pyval * list pyval) :
  cross chunk (trim ab) = cross chunk ab.
Proof.
  unfold cross, trim. simpl. now rewrite combine_firstn_min.
Qed.

End ShaperFacts.

(** C3.  For a batch of b rows and neighbour lists whose id and distance
    sides have the same lengths k_1..k_m, the shaper returns the rows of an
    outer loop over the paired entries around an inner loop over all batch
    rows: every (neighbour, distance) pair of every entry is emitted once
    for every row of the batch, b * (k_1 + ... + k_m) rows in all. *)
Theorem shaper_crosses_every_entry_with_every_row
    (chunk : DataFrame) (ids dists : list (list pyval))
    (Hpar : Forall2 (fun a b => length a = length b) ids dists) :
  exists out,
    InvokeModel.shape chunk (Shaper.lists ids) (Shaper.lists dists)
      = Returned out
    /\ out = flat_map
               (fun ab =>
                  flat_map (fun r => map (Shaper.emit r)
                                         (combine (fst ab) (snd ab)))
                           chunk)
               (combine ids dists)
    /\ (forall r a b nd,
          In r chunk -> In (a, b) (combine ids dists) -> In nd (combine a b) ->
          In (Shaper.emit r nd) out)
    /\ length out
       = length chunk * Shaper.total (map (@length pyval) ids).
Proof.
  eexists. split; [apply ShaperFacts.shape_lists|]. split; [reflexivity|]. split.
  - intros r a b nd Hr Hab Hnd. apply in_flat_map. exists (a, b).
    split; [assumption|]. unfold Shaper.cross. apply in_flat_map.
    exists r. split; [assumption|]. now apply in_map.
  - rewrite ShaperFacts.shaped_length. f_equal.
    now apply ShaperFacts.total_min_equal.
Qed.

(** C10.  On neighbour values that are lists of lists of any lengths the
    shaper returns without raising.  Only the first
    min(len ids, len distances) outer entries are paired, inside a pairing
    only the first min(len id list, len distance list) neighbours are
    emitted, and cutting the input to those lengths beforehand changes
    nothing: the excess entries are dropped silently. *)
Theorem shaper_truncates_to_shorter_side
    (chunk : DataFrame) (ids dists : list (list pyval)) :
  let m := Nat.min (length ids) (length dists) in
  let paired := combine ids dists in
  exists out,
    InvokeModel.shape chunk (Shaper.lists ids) (Shaper.lists dists)
      = Returned out
    /\ map fst paired = firstn m ids
    /\ map snd paired = firstn m dists
    /\ length paired = m
    /\ InvokeModel.shape chunk
         (Shaper.lists (map (fun ab => fst (Shaper.trim ab)) paired))
         (Shaper.lists (map (fun ab => snd (Shaper.trim ab)) paired))
       = Returned out
    /\ length out
       = length chunk
         * Shaper.total
             (map (fun ab => Nat.min (length (fst ab)) (length (snd ab)))
                  paired).
Proof.
  intros m paired. eexists.
  split; [apply ShaperFacts.shape_lists|].
  split; [apply ShaperFacts.combine_fst_firstn|].
  split; [apply ShaperFacts.combine_snd_firstn|].
  split; [apply length_combine|].
  split; [|apply ShaperFacts.shaped_length].
  rewrite ShaperFacts.shape_lists. f_equal. fold paired.
  rewrite <- (map_map Shaper.trim fst), <- (map_map Shaper.trim snd).
  rewrite ShaperFacts.combine_map_fst_snd, flat_map_concat_map, map_map.
  rewrite flat_map_concat_map. f_equal. apply map_ext.
  intros ab. apply ShaperFacts.cross_trim.
Qed.

(** ** The inference chain *)

Module ChainFacts.
Import Py InvokeModel.

Lemma init_inv (chunk : DataFrame) (self : t) :
  init chunk = Returned self ->
  exists r rest code,
    chunk = r :: rest
    /\ dict_get registry (cell_str (marketplace_id r)) = Some code
    /\ self = {| role_arn := "arn:aws:iam::123456789012:role/MyEC2Role";
                 external_account_id := "AWS_ACCOUNT_ID";
                 mps_mapping := registry;
                 region := "us-east-2";
                 batch_size := 32;
                 df_chunk := chunk;
                 img_id_list := map img_id chunk;
                 pt := product_type r;
                 mp := code;
                 prompt := PDict [("physical_id",
                                   PList (map cell_value (map img_id chunk)));
                                  ("pt", cell_value (product_type r))] |}.
Proof.
  unfold init. destruct chunk as [|r rest]; simpl; [discriminate|].
  destruct (dict_get registry (cell_str (marketplace_id r))) as [code|] eqn:E;
    [|discriminate].
  intros [= <-]. now exists r, rest, code.
Qed.

Lemma init_known (r : row) (rest : DataFrame) (code : string) :
  dict_get registry (cell_str (marketplace_id r)) = Some code ->
  init (r :: rest)
    = Returned {| role_arn := "arn:aws:iam::123456789012:role/MyEC2Role";
                  external_account_id := "AWS_ACCOUNT_ID";
                  mps_mapping := registry;
                  region := "us-east-2";
                  batch_size := 32;
                  df_chunk := r :: rest;
                  img_id_list := map img_id (r :: rest);
                  pt := product_type r;
                  mp := code;
                  prompt := PDict [("physical_id",
                                    PList (map cell_value (map img_id (r :: rest))));
                                   ("pt", cell_value (product_type r))] |}.
Proof. unfold init. simpl. now intros ->. Qed.

Lemma init_unknown (r : row) (rest : DataFrame) :
  dict_get registry (cell_str (marketplace_id r)) = None ->
  init (r :: rest) = Raised (KeyError (cell_str (marketplace_id r))).
Proof. unfold init. simpl. now intros ->. Qed.


(** What [invoke_model] does once the [try] has run. *)
Lemma invoke_model_after_chain (w : World) (self : t) (tr : trace) :
  length (img_id_list self) <= batch_size self ->
  invoke_model w self tr
    = match remote_chain w self tr with
      | (Returned nb, tr') =>
          (match shape (df_chunk self) (fst nb) (snd nb) with
           | Returned df => Returned (IsFrame df)
           | Raised e => Raised e
           end, tr')
      | (Raised e, tr') =>
          (if is_NoCredentialsError e
           then Raised (Exception (FAILURE "Credentials could not be found"))
           else if is_Exception e
           then Raised (Exception
                          (FAILURE ("An error occurred: " ++ py_str_exc w e)%string))
           else Raised e, tr')
      end.
Proof.
  intros H. unfold invoke_model.
  destruct (Nat.ltb_spec (batch_size self) (length (img_id_list self)));
    [lia|].
  unfold bind, try_except, handlers, lift, ret, raise.
  destruct (remote_chain w self tr) as [[nb|e] tr']; simpl.
  - now destruct (shape _ _ _).
  - destruct (is_NoCredentialsError e); [reflexivity|].
    now destruct (is_Exception e).
Qed.


Lemma py_iter_raises (v : pyval) (e : exc) :
  py_iter v = Raised e -> exists m, e = TypeError m.
Proof. destruct v; simpl; intros [= <-]; eauto. Qed.

Lemma py_zip_raises (a b : pyval) (e : exc) :
  py_zip a b = Raised e -> exists m, e = TypeError m.
Proof.
  unfold py_zip. destruct (py_iter a) eqn:Ea; simpl.
  - destruct (py_iter b) eqn:Eb; simpl; [discriminate|].
    intros [= <-]. eapply py_iter_raises, Eb.
  - intros [= <-]. eapply py_iter_raises, Ea.
Qed.


(** [invoke_model] hands back a frame whenever it returns: the dict test
    of the caller never succeeds. *)
Lemma invoke_model_returns_frame (w : World) (self : t) (tr tr' : trace)
    (v : dict_or (list result_row)) :
  invoke_model w self tr = (Returned v, tr') -> exists df, v = IsFrame df.
Proof.
  unfold invoke_model.
  destruct (batch_size self <? length (img_id_list self))%nat;
    [discriminate|].
  unfold bind, lift, ret.
  destruct (try_except _ _ tr) as [[nb|e] t1]; [|discriminate].
  destruct (shape _ _ _); [|discriminate].
  intros [= <- _]. eauto.
Qed.


(** The [try] body step by step, with the record of calls after each. *)
Lemma remote_chain_steps (w : World) (self : t) (tr : trace) :
  let role := AssumeRole (role_arn self) "RoleSessionName" in
  let first := InvokeEndpoint (stage1_request w self) in
  remote_chain w self tr
    = match assume_role w tr (role_arn self) "RoleSessionName" with
      | Raised e => (Raised e, tr ++ [role])
      | Returned c =>
        match invoke_endpoint w (tr ++ [role]) c (stage1_request w self) with
        | Raised e => (Raised e, (tr ++ [role]) ++ [first])
        | Returned outp =>
          match process_embeddings w outp with
          | Raised e => (Raised e, (tr ++ [role]) ++ [first])
          | Returned embeddings =>
            match json_dumps w (input_artifact self embeddings) with
            | Raised e => (Raised e, (tr ++ [role]) ++ [first])
            | Returned body =>
              let second := InvokeEndpoint (stage2_request body) in
              match invoke_endpoint w ((tr ++ [role]) ++ [first]) c
                                    (stage2_request body) with
              | Raised e => (Raised e, ((tr ++ [role]) ++ [first]) ++ [second])
              | Returned outp2 =>
                  (process_neighbors w outp2,
                   ((tr ++ [role]) ++ [first]) ++ [second])
              end
            end
          end
        end
      end.
Proof.
  unfold remote_chain, bind, call_assume_role, call_invoke_endpoint, lift.
  cbv zeta.
  destruct (assume_role w tr _ _) as [c|e]; [|reflexivity].
  destruct (invoke_endpoint w _ c (stage1_request w self)) as [outp|e];
    [|reflexivity].
  destruct (process_embeddings w outp) as [emb|e]; [|reflexivity].
  destruct (json_dumps w _) as [body|e]; [|reflexivity].
  destruct (invoke_endpoint w _ c (stage2_request body)) as [outp2|e];
    [|reflexivity].
  now destruct (process_neighbors w outp2).
Qed.

Lemma generic_reason_differs (m : string) :
  "Credentials could not be found" <> ("An error occurred: " ++ m)%string.
Proof. unfold String.append. discriminate. Qed.

(** The remote calls depend on the object only through its role, prompt,
    product type and marketplace code. *)
Lemma remote_chain_fields (w : World) (self self' : t) (tr : trace) :
  role_arn self = role_arn self' -> prompt self = prompt self' ->
  pt self = pt self' -> mp self = mp self' ->
  remote_chain w self tr = remote_chain w self' tr.
Proof.
  intros Hr Hp Ht Hm. rewrite !remote_chain_steps.
  unfold stage1_request, input_artifact. now rewrite Hr, Hp, Ht, Hm.
Qed.

Lemma invoke_model_calls (w : World) (self : t) (tr : trace) :
  snd (invoke_model w self tr)
    = if (batch_size self <? length (img_id_list self))%nat then tr
      else snd (remote_chain w self tr).
Proof.
  unfold invoke_model.
  destruct (batch_size self <? length (img_id_list self))%nat;
    [reflexivity|].
  unfold bind, try_except, handlers, lift, ret, raise.
  destruct (remote_chain w self tr) as [[nb|e] t1]; simpl.
  - now destruct (shape _ _ _).
  - destruct (is_NoCredentialsError e); [reflexivity|].
    now destruct (is_Exception e).
Qed.

End ChainFacts.


(** C8, as amended.  When the request for the role raises
    [NoCredentialsError], [invoke_model] raises the FAILURE envelope whose
    reason is exactly "Credentials could not be found", after that one
    call.  Any other exception of the [Exception] hierarchy raised inside
    the [try] is wrapped into the FAILURE envelope with reason
    "An error occurred: " followed by its message, and the two reasons are
    never the same text. *)
Theorem missing_credentials_have_their_own_reason
    (w : World) (self : InvokeModel.t) (tr : trace)
    (Hsize : length (InvokeModel.img_id_list self)
             <= InvokeModel.batch_size self) :
  (forall msg,
      assume_role w tr (InvokeModel.role_arn self) "RoleSessionName"
        = Raised (NoCredentialsError msg) ->
      InvokeModel.invoke_model w self tr
        = (Raised (Exception (FAILURE "Credentials could not be found")),
           tr ++ [AssumeRole (InvokeModel.role_arn self) "RoleSessionName"]))
  /\ (forall e tr',
        InvokeModel.remote_chain w self tr = (Raised e, tr') ->
        is_NoCredentialsError e = false ->
        is_Exception e = true ->
        InvokeModel.invoke_model w self tr
          = (Raised (Exception
                       (FAILURE ("An error occurred: " ++ py_str_exc w e)%string)),
             tr'))
  /\ (forall m,
        "Credentials could not be found" <> ("An error occurred: " ++ m)%string).
Proof.
  split; [|split].
  - intros msg H.
    rewrite ChainFacts.invoke_model_after_chain by exact Hsize.
    rewrite ChainFacts.remote_chain_steps. cbv zeta. now rewrite H.
  - intros e tr' H N I.
    rewrite ChainFacts.invoke_model_after_chain by exact Hsize.
    now rewrite H, N, I.
  - apply ChainFacts.generic_reason_differs.
Qed.


(** C9.  For a non-empty batch whose first row's marketplace is in the
    registry, the object is built whatever the other rows hold (nothing
    checks that they agree): its prompt is the img_id column in order, cell
    by cell as the frame holds them, with the first row's product type, and
    the second request carries that product type and the region of the
    first row's marketplace.  What is sent is exactly this: once the role
    is granted for a batch within the size limit, the first endpoint call
    has the text of that prompt as its body, with content type text/csv;
    and when it answers with embeddings, the second has the JSON text of
    the embeddings with the first row's product type and marketplace
    region, with content type application/json.  A batch with the same
    img_id column and the same first-row product type and marketplace
    causes the same remote calls with the same bodies, whatever the product
    types and marketplaces of its other rows. *)
Theorem requests_use_first_row_only
    (r : row) (rest : DataFrame) (code : string)
    (Hknown : dict_get InvokeModel.registry (cell_str (marketplace_id r))
              = Some code) :
  exists self,
    InvokeModel.init (r :: rest) = Returned self
    /\ InvokeModel.prompt self
       = PDict [("physical_id", PList (map cell_value (map img_id (r :: rest))));
                ("pt", cell_value (product_type r))]
    /\ (forall emb,
          InvokeModel.input_artifact self emb
            = PDict [("embedding", emb); ("pt", cell_value (product_type r));
                     ("marketplace", PStr code)])
    /\ (forall w tr c,
          length (r :: rest) <= 32 ->
          assume_role w tr "arn:aws:iam::123456789012:role/MyEC2Role"
            "RoleSessionName" = Returned c ->
          let first :=
            {| EndpointName := "EndpointName";
               Body := py_repr w
                         (PDict [("physical_id",
                                  PList (map cell_value
                                           (map img_id (r :: rest))));
                                 ("pt", cell_value (product_type r))]);
               ContentType := "text/csv";
               Accept := "application/json" |} in
          let t1 :=
            tr ++ [AssumeRole "arn:aws:iam::123456789012:role/MyEC2Role"
                              "RoleSessionName"] in
          (exists later,
              snd (InvokeModel.invoke_model w self tr)
                = t1 ++ InvokeEndpoint first :: later)
          /\ (forall body1 emb body2,
                invoke_endpoint w t1 c first = Returned body1 ->
                InvokeModel.process_embeddings w body1 = Returned emb ->
                json_dumps w
                  (PDict [("embedding", emb);
                          ("pt", cell_value (product_type r));
                          ("marketplace", PStr code)]) = Returned body2 ->
                snd (InvokeModel.invoke_model w self tr)
                  = t1 ++ [InvokeEndpoint first;
                           InvokeEndpoint
                             {| EndpointName := "EndpointName";
                                Body := body2;
                                ContentType := "application/json";
                                Accept := "application/json" |}]))
    /\ (forall r' rest',
          map img_id (r' :: rest') = map img_id (r :: rest) ->
          product_type r' = product_type r ->
          marketplace_id r' = marketplace_id r ->
          exists self',
            InvokeModel.init (r' :: rest') = Returned self'
            /\ forall w tr,
                 snd (InvokeModel.invoke_model w self' tr)
                   = snd (InvokeModel.invoke_model w self tr)).
Proof.
  eexists. split; [apply (ChainFacts.init_known r rest code Hknown)|].
  split; [reflexivity|]. split; [reflexivity|]. split.
  - intros w tr c Hsize Hrole first t1.
    rewrite ChainFacts.invoke_model_calls.
    cbn [InvokeModel.batch_size InvokeModel.img_id_list].
    rewrite length_map.
    destruct (Nat.ltb_spec 32 (length (r :: rest))) as [L|_]; [lia|].
    rewrite ChainFacts.remote_chain_steps. cbv zeta.
    cbn [InvokeModel.role_arn]. rewrite Hrole.
    change (InvokeModel.stage1_request w _) with first.
    fold t1.
    split.
    + destruct (invoke_endpoint w t1 c first) as [body1|e];
        [|now exists []].
      destruct (InvokeModel.process_embeddings w body1) as [emb|e];
        [|now exists []].
      destruct (json_dumps w _) as [body2|e];
        [|now exists []].
      eexists [_].
      destruct (invoke_endpoint w (t1 ++ _) c _);
        cbn [snd]; rewrite <- ?app_assoc; reflexivity.
    + intros body1 emb body2 E1 E2 E3. rewrite E1, E2.
      change (InvokeModel.input_artifact _ emb)
        with (PDict [("embedding", emb); ("pt", cell_value (product_type r));
                     ("marketplace", PStr code)]).
      rewrite E3.
      destruct (invoke_endpoint w (t1 ++ _) c _);
        cbn [snd]; rewrite <- ?app_assoc; reflexivity.
  - intros r' rest' Himg Hpt Hmp.
    eexists. split.
    + apply (ChainFacts.init_known r' rest' code). rewrite Hmp. exact Hknown.
    + intros w tr. rewrite !ChainFacts.invoke_model_calls.
      cbn [InvokeModel.batch_size InvokeModel.img_id_list].
      rewrite Himg.
      destruct (32 <? length (map img_id (r :: rest)))%nat; [reflexivity|].
      f_equal. apply ChainFacts.remote_chain_fields;
        cbn [InvokeModel.role_arn InvokeModel.prompt InvokeModel.pt InvokeModel.mp];
        congruence.
Qed.

(** ** The orchestrator *)

Module MainFacts.
Import Py Pandas Main.

Lemma bind_raised {S A B} (m : M S A) (k : A -> M S B) (s s' : S) (e : exc) :
  m s = (Raised e, s') -> bind m k s = (Raised e, s').
Proof. unfold bind. now intros ->. Qed.

(** A loop one of whose iterations raises in every state raises: at that
    iteration, or earlier. *)
Lemma for_each_raises {S A} (body : A -> M S unit) (l : list A) (x : A) :
  In x l ->
  (forall s, exists e s', body x s = (Raised e, s')) ->
  forall s, exists e s', for_each l body s = (Raised e, s').
Proof.
  intros Hin Hx. induction l as [|a l IH]; [destruct Hin|].
  intros s. simpl. unfold bind.
  destruct (body a s) as [[u|e] s1] eqn:Ea.
  - destruct Hin as [->|Hin].
    + destruct (Hx s) as (e & s' & E). congruence.
    + apply IH, Hin.
  - eauto.
Qed.

Lemma dfs_chunk_nonempty (B : nat) (g c : DataFrame) :
  0 < B -> In c (Partitioner.dfs B g) -> c <> [].
Proof.
  intros HB Hc.
  destruct (PartitionerFacts.dfs_shape B g HB)
    as (full & rest & E & _ & F & Z & P).
  rewrite E in Hc. apply in_app_or in Hc.
  assert (L : 0 < length c); [|destruct c; [simpl in L; lia|discriminate]].
  destruct Hc as [Hc|Hc].
  - rewrite Forall_forall in F. now rewrite (F c Hc).
  - destruct (Nat.eq_dec (length g mod B) 0) as [z|z].
    + rewrite (Z z) in Hc. destruct Hc.
    + destruct P as (last & -> & L); [lia|]. destruct Hc as [<-|[]]. lia.
Qed.

(** The first batch of a frame starts with the frame's first row. *)
Lemma dfs_head (B : nat) (r : row) (g : DataFrame) :
  0 < B -> exists c cs, Partitioner.dfs B (r :: g) = (r :: c) :: cs.
Proof.
  intros HB. assert (C := PartitionerFacts.dfs_concat B (r :: g) HB).
  destruct (Partitioner.dfs B (r :: g)) as [|c cs] eqn:E; [discriminate|].
  assert (N : c <> []).
  { apply (dfs_chunk_nonempty B (r :: g)); [exact HB|]. rewrite E. now left. }
  destruct c as [|x c]; [congruence|]. simpl in C. injection C as -> _.
  eauto.
Qed.

Lemma process_chunk_unknown (w : World) (r : row) (c : DataFrame) (s : state) :
  dict_get InvokeModel.registry (cell_str (marketplace_id r)) = None ->
  process_chunk w (r :: c) s
    = (Raised (KeyError (cell_str (marketplace_id r))), s).
Proof.
  intros H. unfold process_chunk. apply bind_raised. unfold lift.
  now rewrite ChainFacts.init_unknown.
Qed.

(** A frame holding a row of an unregistered marketplace makes the loop
    over that marketplace raise, whatever the state. *)
Lemma group_loop_raises (w : World) (df_pt : DataFrame) (r : row) :
  In r df_pt ->
  present (marketplace_id r) ->
  dict_get InvokeModel.registry (cell_str (marketplace_id r)) = None ->
  forall s, exists e s', group_loop w df_pt (marketplace_id r) s = (Raised e, s').
Proof.
  intros Hin Hp Hun s. unfold group_loop, split. cbv zeta. unfold bind at 1.
  unfold bind at 1. unfold get.
  destruct (Nat.eqb_spec (batch_size (fst s)) 0) as [z|nz].
  - unfold raise. eauto.
  - unfold ret.
    set (g := select marketplace_id (marketplace_id r) df_pt).
    assert (Hg : In r g).
    { apply filter_In. split; [exact Hin|].
      now apply PartitionerFacts.cell_eq_refl. }
    destruct g as [|r0 g'] eqn:Eg; [destruct Hg|].
    destruct (dfs_head (batch_size (fst s)) r0 g') as (c & cs & ->); [lia|].
    assert (H0 : marketplace_id r0 = marketplace_id r).
    { assert (I : In r0 g) by (rewrite Eg; now left).
      apply filter_In in I. now apply PartitionerFacts.cell_eq_eq. }
    simpl. exists (KeyError (cell_str (marketplace_id r0))), s.
    apply bind_raised, process_chunk_unknown. now rewrite H0.
Qed.

(** A row with both key cells present and an unregistered marketplace,
    anywhere in the dataset, makes the loops raise: at its batch, or
    earlier. *)
Lemma loops_raise (w : World) (df : DataFrame) (r : row) :
  In r df ->
  present (product_type r) -> present (marketplace_id r) ->
  dict_get InvokeModel.registry (cell_str (marketplace_id r)) = None ->
  forall s, exists e s', loops w df s = (Raised e, s').
Proof.
  intros Hin Hpt Hmp Hun. unfold loops.
  apply (for_each_raises _ _ (product_type r)).
  - apply PartitionerFacts.unique_In. now apply in_map.
  - assert (Hr : In r (select product_type (product_type r) df)).
    { apply filter_In. split; [exact Hin|].
      now apply PartitionerFacts.cell_eq_refl. }
    cbv zeta. apply (for_each_raises _ _ (marketplace_id r)).
    + apply PartitionerFacts.unique_In. now apply in_map.
    + now apply group_loop_raises.
Qed.

Lemma get_predictions_raises (w : World) (s s' : state) (e : exc) :
  predictions_body w s = (Raised e, s') ->
  get_predictions w s
    = (if is_Exception e
       then Raised (Exception (FAILURE (py_str_exc w e)))
       else Raised e, s').
Proof.
  intros H. unfold get_predictions, try_except. rewrite H.
  now destruct (is_Exception e).
Qed.

Lemma predictions_body_loops_raise (w : World) (df : DataFrame)
    (s s' : state) (e : exc) :
  get_files w = Returned (IsFrame (Table df)) ->
  loops w df s = (Raised e, s') ->
  predictions_body w s = (Raised e, s').
Proof.
  intros Hg Hl. unfold predictions_body, bind at 1. unfold lift.
  rewrite Hg. now apply bind_raised.
Qed.

(** Whatever the remote services answer and wherever the row stands, a
    dataset with a row of an unregistered marketplace (both key cells
    present) never yields a path: the run ends by raising. *)
Lemma unknown_marketplace_never_returns (w : World) (df : DataFrame)
    (r : row) (s : state) :
  get_files w = Returned (IsFrame (Table df)) ->
  In r df ->
  present (product_type r) -> present (marketplace_id r) ->
  dict_get InvokeModel.registry (cell_str (marketplace_id r)) = None ->
  exists e s', get_predictions w s = (Raised e, s').
Proof.
  intros Hg Hin Hpt Hmp Hun.
  destruct (loops_raise w df r Hin Hpt Hmp Hun s) as (e & s' & E).
  rewrite (get_predictions_raises w s s' e).
  - destruct (is_Exception e); eauto.
  - now apply (predictions_body_loops_raise w df).
Qed.

(** *** No run ever tags a row *)

Lemma for_each_keeps {S A} (P : S -> Prop) (body : A -> M S unit) (l : list A) :
  (forall x s o s', body x s = (o, s') -> P s -> P s') ->
  forall s o s', for_each l body s = (o, s') -> P s -> P s'.
Proof.
  intros H. induction l as [|a l IH]; simpl; intros s o s'.
  - unfold ret. now intros [= _ <-].
  - unfold bind. destruct (body a s) as [[u|e] s1] eqn:Ea.
    + intros E Ps. eapply IH; [exact E|]. eapply H; eauto.
    + intros [= _ <-] Ps. eapply H; eauto.
Qed.

Lemma process_chunk_keeps (w : World) (chunk : DataFrame)
    (s s' : state) (o : outcome unit) :
  process_chunk w chunk s = (o, s') -> clean s -> clean s'.
Proof.
  unfold process_chunk, bind, lift, on_trace.
  destruct (InvokeModel.init chunk) as [obj|e]; [|now intros [= _ <-]].
  destruct (InvokeModel.invoke_model w obj (snd s)) as [[v|e] tr] eqn:Ei.
  - destruct (ChainFacts.invoke_model_returns_frame _ _ _ _ _ Ei) as (df & ->).
    unfold append_combined, modify. intros [= _ <-] C.
    unfold clean in *. simpl. apply Forall_app. split; [exact C|].
    apply Forall_forall. intros c Hc. apply in_map_iff in Hc.
    now destruct Hc as (x & <- & _).
  - now intros [= _ <-].
Qed.

Lemma loops_keep (w : World) (df : DataFrame) (s s' : state)
    (o : outcome unit) :
  loops w df s = (o, s') -> clean s -> clean s'.
Proof.
  unfold loops. apply (for_each_keeps clean). intros pt s0 o0 s0'. cbv zeta.
  apply (for_each_keeps clean). intros mp_id s1 o1 s1'.
  unfold group_loop, split. cbv zeta. unfold bind at 1. unfold bind at 1.
  unfold get. destruct (batch_size (fst s1) =? 0)%nat.
  - unfold raise. now intros [= _ <-].
  - unfold ret. apply (for_each_keeps clean). intros c s2 o2 s2'.
    apply process_chunk_keeps.
Qed.

(** Whatever the world does, a run leaves no tagged row in the combined
    result: the branch that would tag a failed batch is never taken. *)
Lemma no_row_is_ever_tagged (w : World) (s s' : state)
    (o : outcome returned) :
  get_predictions w s = (o, s') -> clean s -> clean s'.
Proof.
  assert (B : forall o1 s1, predictions_body w s = (o1, s1) ->
                            clean s -> clean s1).
  { unfold predictions_body, bind at 1. unfold lift.
    destruct (get_files w) as [[d|[|df]]|e].
    - unfold ret. now intros o1 s1 [= _ <-].
    - unfold raise. now intros o1 s1 [= _ <-].
    - unfold bind at 1. destruct (loops w df s) as [[u|e] s1] eqn:El.
      + intros o1 s2 E C. apply (loops_keep _ _ _ _ _ El) in C.
        revert E. unfold bind, get, set_file_path, modify, lift, ret. simpl.
        destruct (to_csv w _ _); now intros [= _ <-].
      + intros o1 s2 [= _ <-]. apply (loops_keep _ _ _ _ _ El).
    - now intros o1 s1 [= _ <-]. }
  unfold get_predictions, try_except.
  destruct (predictions_body w s) as [[v|e] s1] eqn:Eb.
  - intros [= _ <-]. now apply (B _ _ eq_refl).
  - destruct (is_Exception e); unfold raise; intros [= _ <-];
      now apply (B _ _ eq_refl).
Qed.

End MainFacts.

(** C6.  Three batches of one row each, the second of a marketplace
    that is not in the registry (the table 000000 -> US, 111111 -> UK,
    222222 -> ES).  Building the inference object for that batch raises
    [KeyError] (a [LookupError]) with the id; no envelope is made of it and
    nothing absorbs it.  [get_predictions] raises the FAILURE envelope of
    its own handler, whose reason is the [repr] of the id.  The combined
    result then holds the result rows of the first batch only, no row of the
    second batch has been tagged, the third batch has not been tried, no
    file path has been set, and [execute] raises the same exception. *)
Theorem unknown_marketplace_ends_the_run :
  InvokeModel.registry = [("000000", "US"); ("111111", "UK"); ("222222", "ES")]
  /\ length (Partitioner.partition 32 Demo.unknown_second) = 3
  /\ InvokeModel.init [Demo.unknown_row] = Raised (KeyError "999999")
  /\ is_LookupError (KeyError "999999") = true
  /\ Main.get_predictions Demo.unknown_world (Main.init, [])
     = (Raised (Exception (FAILURE "'999999'")),
        snd (Main.get_predictions Demo.unknown_world (Main.init, [])))
  /\ Main.output_combined
       (fst (snd (Main.get_predictions Demo.unknown_world (Main.init, []))))
     = [Predicted (Shaper.emit (Demo.sheet "A1" "000000" "img-a")
                               (PStr "N1", PInt 3));
        Predicted (Shaper.emit (Demo.sheet "A1" "000000" "img-a")
                               (PStr "N2", PInt 4))]
  /\ Main.file_path
       (fst (snd (Main.get_predictions Demo.unknown_world (Main.init, []))))
     = ""
  /\ Demo.role_calls
       (snd (snd (Main.get_predictions Demo.unknown_world (Main.init, []))))
     = 1
  /\ fst (Main.execute Demo.unknown_world (Main.init, []))
     = Raised (Exception (FAILURE "'999999'")).
Proof. vm_compute. repeat split; reflexivity. Qed.

(** C1.  Three batches of one row each, the role refused at the second
    request: [get_predictions] raises a FAILURE envelope wrapping the
    batch's envelope.  The combined result then holds the result rows of
    the first batch only, no row of the second batch has been tagged, the
    third batch has not been tried, no file path has been set, and
    [execute] raises the same exception. *)
Theorem second_batch_failure_ends_the_run :
  length (Partitioner.partition 32 Demo.three_batches) = 3
  /\ Main.get_predictions Demo.refused_second (Main.init, [])
     = (Raised (Exception
                  (FAILURE
                     "{'event_message': 'FAILURE', 'reason': 'Credentials could not be found'}")),
        snd (Main.get_predictions Demo.refused_second (Main.init, [])))
  /\ Main.output_combined
       (fst (snd (Main.get_predictions Demo.refused_second (Main.init, []))))
     = [Predicted (Shaper.emit (Demo.sheet "A1" "000000" "img-a")
                               (PStr "N1", PInt 3));
        Predicted (Shaper.emit (Demo.sheet "A1" "000000" "img-a")
                               (PStr "N2", PInt 4))]
  /\ Main.file_path
       (fst (snd (Main.get_predictions Demo.refused_second (Main.init, []))))
     = ""
  /\ Demo.role_calls
       (snd (snd (Main.get_predictions Demo.refused_second (Main.init, []))))
     = 2
  /\ fst (Main.execute Demo.refused_second (Main.init, []))
     = Raised (Exception
                 (FAILURE
                    "{'event_message': 'FAILURE', 'reason': 'Credentials could not be found'}")).
Proof. vm_compute. repeat split; reflexivity. Qed.

(** C2.  A batch of two rows whose neighbour lists have 3 and 2 entries:
    the shaper returns 10 rows, not 5, and each row of the batch is emitted
    with a neighbour that belongs to the other row's list. *)
Theorem two_rows_give_ten_rows_not_five :
  exists out,
    InvokeModel.shape Demo.pair_chunk (Shaper.lists Demo.pair_ids)
                      (Shaper.lists Demo.pair_dists)
      = Returned out
    /\ Shaper.total (map (@length pyval) Demo.pair_ids) = 5
    /\ length out = 10
    /\ In (Shaper.emit (Demo.sheet "A1" "000000" "img-a") (PStr "B-n1", PInt 4))
          out
    /\ In (Shaper.emit (Demo.sheet "B1" "000000" "img-b") (PStr "A-n1", PInt 1))
          out.
Proof.
  eexists. split; [vm_compute; reflexivity|].
  split; [reflexivity|]. split; [reflexivity|]. split; vm_compute; tauto.
Qed.

(** ** The theorems at concrete inputs *)

Lemma partition_covers_groups_in_bounded_batches_witness :
  0 < 2
  /\ Partitioner.partition 2 Demo.mixed
     = [[Demo.sheet "A1" "000000" "img-a"; Demo.sheet "C1" "000000" "img-c"];
        [Demo.sheet "D1" "000000" "img-d"];
        [Demo.sheet "B1" "111111" "img-b"; Demo.sheet "E1" "111111" "img-e"]]
  /\ Forall (fun r => present (product_type r) /\ present (marketplace_id r))
            Demo.mixed
  /\ Permutation (concat (Partitioner.partition 2 Demo.mixed)) Demo.mixed
  /\ Forall (fun b => length b <= 2 /\ Partitioner.homogeneous b)
            (Partitioner.partition 2 Demo.mixed).
Proof.
  assert (H : 0 < 2) by lia.
  assert (K : Forall (fun r => present (product_type r)
                               /\ present (marketplace_id r)) Demo.mixed).
  { repeat constructor; discriminate. }
  destruct (partition_covers_groups_in_bounded_batches 2 Demo.mixed H)
    as (_ & Q & _ & _ & _ & _ & _ & F).
  split; [exact H|]. split; [reflexivity|]. split; [exact K|].
  split; [exact (Q K)|exact F].
Defined.

Lemma shaper_crosses_every_entry_with_every_row_witness :
  Forall2 (fun a b => length a = length b) Demo.pair_ids Demo.pair_dists
  /\ exists out,
       InvokeModel.shape Demo.pair_chunk (Shaper.lists Demo.pair_ids)
                         (Shaper.lists Demo.pair_dists)
         = Returned out
       /\ length out = 2 * (3 + 2).
Proof.
  assert (H : Forall2 (fun a b => length a = length b)
                      Demo.pair_ids Demo.pair_dists).
  { repeat constructor. }
  split; [exact H|].
  destruct (shaper_crosses_every_entry_with_every_row
              Demo.pair_chunk Demo.pair_ids Demo.pair_dists H)
    as (out & E & _ & _ & L).
  exists out. split; [exact E|exact L].
Defined.


Lemma missing_credentials_have_their_own_reason_witness :
  exists self,
    InvokeModel.init (Demo.uniform_chunk 1) = Returned self
    /\ length (InvokeModel.img_id_list self) <= InvokeModel.batch_size self
    /\ assume_role Demo.no_credentials_world []
         (InvokeModel.role_arn self) "RoleSessionName"
       = Raised (NoCredentialsError "Unable to locate credentials")
    /\ InvokeModel.invoke_model Demo.no_credentials_world self []
       = (Raised (Exception (FAILURE "Credentials could not be found")),
          [AssumeRole "arn:aws:iam::123456789012:role/MyEC2Role"
                      "RoleSessionName"]).
Proof.
  eexists. split; [reflexivity|].
  match goal with
  | |- ?size /\ _ => assert (H : size) by (simpl; lia)
  end.
  split; [exact H|]. split; [reflexivity|].
  apply (proj1 (missing_credentials_have_their_own_reason
                  Demo.no_credentials_world _ [] H)
               "Unable to locate credentials" eq_refl).
Defined.


Lemma requests_use_first_row_only_witness :
  dict_get InvokeModel.registry "000000" = Some "US"
  /\ exists self,
       InvokeModel.init Demo.uneven_chunk = Returned self
       /\ InvokeModel.prompt self
          = PDict [("physical_id", PList [PStr "img-a"; PStr "img-b"]);
                   ("pt", PStr "FLAT_SHEET")]
       /\ InvokeModel.input_artifact self (PList [])
          = PDict [("embedding", PList []); ("pt", PStr "FLAT_SHEET");
                   ("marketplace", PStr "US")]
       /\ snd (InvokeModel.invoke_model Demo.refused_second self [])
          = [AssumeRole "arn:aws:iam::123456789012:role/MyEC2Role"
                        "RoleSessionName";
             InvokeEndpoint
               {| EndpointName := "EndpointName";
                  Body := "{'physical_id': ['img-a', 'img-b'], 'pt': 'FLAT_SHEET'}";
                  ContentType := "text/csv";
                  Accept := "application/json" |};
             InvokeEndpoint
               {| EndpointName := "EndpointName";
                  Body := Demo.show Demo.dq
                            (PDict [("embedding", PList [PList [PInt 1; PInt 2]]);
                                    ("pt", PStr "FLAT_SHEET");
                                    ("marketplace", PStr "US")]);
                  ContentType := "application/json";
                  Accept := "application/json" |}]
       /\ exists self',
            InvokeModel.init Demo.pair_chunk = Returned self'
            /\ snd (InvokeModel.invoke_model Demo.refused_second self' [])
               = snd (InvokeModel.invoke_model Demo.refused_second self []).
Proof.
  split; [reflexivity|].
  destruct (requests_use_first_row_only
              (Demo.sheet "A1" "000000" "img-a") (tl Demo.uneven_chunk) "US"
              eq_refl)
    as (self & E & P & A & S & N).
  exists self. split; [exact E|]. split; [exact P|].
  split; [exact (A (PList []))|]. split.
  - assert (L : length (Demo.sheet "A1" "000000" "img-a"
                          :: tl Demo.uneven_chunk) <= 32) by (simpl; lia).
    exact (proj2 (S Demo.refused_second [] Demo.keys L eq_refl)
                 Demo.embeddings_text
                 (PList [PList [PInt 1; PInt 2]])
                 (Demo.show Demo.dq
                    (PDict [("embedding", PList [PList [PInt 1; PInt 2]]);
                            ("pt", PStr "FLAT_SHEET");
                            ("marketplace", PStr "US")]))
                 eq_refl eq_refl eq_refl).
  - destruct (N (Demo.sheet "A1" "000000" "img-a") (tl Demo.pair_chunk)
                eq_refl eq_refl eq_refl)
      as (self' & E' & T).
    exists self'. split; [exact E'|exact (T Demo.refused_second [])].
Defined.

(** The 35 rows of one group and a batch size of 32 give two batches, of
    32 and 3 rows. *)
Lemma thirty_five_rows_give_two_batches :
  map (@length row) (Partitioner.partition 32 (Demo.uniform_chunk 35)) = [32; 3].
Proof. vm_compute. reflexivity. Qed.

(** ** Where the specification and the code part *)

(** C4 as stated fails: a row whose product_type cell is blank is in no
    batch.  [unique] lists the missing value, but no row is selected for it,
    since a missing value equals nothing. *)
Lemma blank_key_cell_drops_the_row :
  0 < 32
  /\ Pandas.unique (map product_type Demo.blank_key) = [Text "FLAT_SHEET"; Missing]
  /\ Pandas.select product_type Missing Demo.blank_key = []
  /\ Partitioner.partition 32 Demo.blank_key
     = [[Demo.sheet "A1" "000000" "img-a"]]
  /\ length Demo.blank_key = 2
  /\ ~ Permutation (concat (Partitioner.partition 32 Demo.blank_key))
                   Demo.blank_key.
Proof.
  split; [lia|]. split; [reflexivity|]. split; [reflexivity|].
  split; [reflexivity|]. split; [reflexivity|].
  intros P. apply Permutation_length in P. vm_compute in P. discriminate P.
Qed.



(** C8 as stated fails on the letter of the reason: the code's text starts
    with a capital C. *)
Lemma missing_credentials_reason_is_capitalised :
  exists self,
    InvokeModel.init (Demo.uniform_chunk 1) = Returned self
    /\ assume_role Demo.no_credentials_world []
         (InvokeModel.role_arn self) "RoleSessionName"
       = Raised (NoCredentialsError "Unable to locate credentials")
    /\ fst (InvokeModel.invoke_model Demo.no_credentials_world self [])
       = Raised (Exception (FAILURE "Credentials could not be found"))
    /\ fst (InvokeModel.invoke_model Demo.no_credentials_world self [])
       <> Raised (Exception (FAILURE "credentials could not be found")).
Proof.
  eexists. split; [reflexivity|]. split; [reflexivity|].
  split; [reflexivity|]. vm_compute. discriminate.
Qed.


(** ** Further properties of the partitioning *)

Module BatchFacts.
Import Pandas Partitioner.

Lemma dfs_length (B : nat) (g : DataFrame) :
  length (dfs B g)
    = length g / B + (if (0 <? length g mod B)%nat then 1 else 0).
Proof.
  unfold dfs. destruct (0 <? length g mod B)%nat.
  - now rewrite length_app, length_map, length_seq.
  - now rewrite length_map, length_seq, Nat.add_0_r.
Qed.

Lemma ceiling_div (N B : nat) :
  0 < B ->
  (N + B - 1) / B = N / B + (if (0 <? N mod B)%nat then 1 else 0).
Proof.
  intros HB. assert (E := Nat.div_mod_eq N B).
  assert (R := Nat.mod_upper_bound N B ltac:(lia)).
  destruct (Nat.ltb_spec 0 (N mod B)).
  - symmetry. apply (Nat.div_unique _ _ _ (N mod B - 1)); nia.
  - symmetry. apply (Nat.div_unique _ _ _ (B - 1)); nia.
Qed.

Lemma nth_full_batch (B i : nat) (g : DataFrame) :
  i < length g / B ->
  nth i (dfs B g) [] = firstn B (skipn (i * B) g).
Proof.
  intros Hi. unfold dfs.
  assert (L : i < length (map (fun j => iloc (j * B) ((j + 1) * B) g)
                              (seq 0 (length g / B)))).
  { now rewrite length_map, length_seq. }
  assert (N : nth i (map (fun j => iloc (j * B) ((j + 1) * B) g)
                         (seq 0 (length g / B))) []
              = firstn B (skipn (i * B) g)).
  { rewrite (nth_indep _ [] (iloc (0 * B) ((0 + 1) * B) g)) by exact L.
    rewrite (map_nth (fun j => iloc (j * B) ((j + 1) * B) g)).
    rewrite seq_nth by exact Hi. apply PartitionerFacts.iloc_chunk. }
  destruct (0 <? length g mod B)%nat; [|exact N].
  now rewrite app_nth1.
Qed.

Lemma nth_last_batch (B : nat) (g : DataFrame) :
  0 < B -> 0 < length g mod B ->
  nth (length g / B) (dfs B g) [] = skipn (length g / B * B) g.
Proof.
  intros HB R. unfold dfs.
  destruct (Nat.ltb_spec 0 (length g mod B)); [|lia].
  rewrite app_nth2; rewrite length_map, length_seq; [|lia].
  rewrite Nat.sub_diag. simpl. unfold iloc_last. f_equal.
  assert (E := Nat.div_mod_eq (length g) B). nia.
Qed.

End BatchFacts.

(** X1.  Every batch the partitioner emits for a positive batch size has
    at least one row, so building the inference object for it cannot fail
    on an empty column: the only exception [__init__] can raise for such a
    batch is the [KeyError] of an unregistered marketplace. *)
Theorem emitted_batches_are_never_empty
    (B : nat) (df chunk : DataFrame)
    (HB : 0 < B) (Hin : In chunk (Partitioner.partition B df)) :
  chunk <> []
  /\ forall e, InvokeModel.init chunk = Raised e -> exists k, e = KeyError k.
Proof.
  assert (N : chunk <> []).
  { unfold Partitioner.partition in Hin. apply in_flat_map in Hin.
    destruct Hin as (g & _ & Hc). now apply (MainFacts.dfs_chunk_nonempty B g). }
  split; [exact N|]. destruct chunk as [|r rest]; [congruence|].
  intros e. unfold InvokeModel.init. simpl.
  destruct (dict_get InvokeModel.registry (cell_str (marketplace_id r)));
    [discriminate|]. intros [= <-]. eauto.
Qed.

(** X2.  A frame of N rows is cut into ceil(N / B) batches. *)
Theorem batch_count_is_the_ceiling
    (B : nat) (g : DataFrame) (HB : 0 < B) :
  length (Partitioner.dfs B g) = (length g + B - 1) / B.
Proof.
  rewrite BatchFacts.dfs_length. symmetry. now apply BatchFacts.ceiling_div.
Qed.

(** X3.  A non-empty frame of at most B rows, B rows included, goes out as
    one batch that is the frame itself; no empty batch follows it. *)
Theorem frame_within_batch_size_is_one_batch
    (B : nat) (g : DataFrame)
    (Hpos : 0 < length g) (Hle : length g <= B) :
  Partitioner.dfs B g = [g].
Proof.
  unfold Partitioner.dfs.
  destruct (Nat.eq_dec (length g) B) as [E|E].
  - rewrite E, Nat.div_same, Nat.Div0.mod_same by lia. simpl.
    unfold Pandas.iloc. simpl. rewrite Nat.add_0_r, Nat.sub_0_r.
    now rewrite firstn_all2 by lia.
  - rewrite Nat.div_small, Nat.mod_small by lia. simpl.
    destruct (Nat.ltb_spec 0 (length g)); [|lia].
    unfold Pandas.iloc_last. now rewrite Nat.sub_diag.
Qed.

(** X4.  The batches of a frame are its consecutive slices: batch i, for
    i below N / B, is rows i*B .. i*B + B - 1, and when N mod B is not zero
    the batch after them is every row from (N / B) * B on. *)
Theorem batches_are_consecutive_slices
    (B : nat) (g : DataFrame) (HB : 0 < B) :
  (forall i, i < length g / B ->
             nth i (Partitioner.dfs B g) [] = firstn B (skipn (i * B) g))
  /\ (0 < length g mod B ->
      nth (length g / B) (Partitioner.dfs B g) []
        = skipn (length g / B * B) g).
Proof.
  split.
  - intros i. apply BatchFacts.nth_full_batch.
  - now apply BatchFacts.nth_last_batch.
Qed.

(** ** Further properties of the inference chain *)

Module ChainMore.
Import Py InvokeModel.

Lemma remote_chain_calls (w : World) (self : t) (tr : trace) :
  let role := AssumeRole (role_arn self) "RoleSessionName" in
  let first := InvokeEndpoint (stage1_request w self) in
  exists calls,
    snd (remote_chain w self tr) = tr ++ calls
    /\ (calls = [role] \/ calls = [role; first]
        \/ exists body,
             calls = [role; first; InvokeEndpoint (stage2_request body)]).
Proof.
  intros role first. rewrite ChainFacts.remote_chain_steps. cbv zeta. fold role first.
  destruct (assume_role w tr _ _) as [c|e].
  2:{ exists [role]. simpl. auto. }
  destruct (invoke_endpoint w _ c (stage1_request w self)) as [outp|e].
  2:{ exists [role; first]. simpl. rewrite <- app_assoc. auto. }
  destruct (process_embeddings w outp) as [emb|e].
  2:{ exists [role; first]. simpl. rewrite <- app_assoc. auto. }
  destruct (json_dumps w _) as [body|e].
  2:{ exists [role; first]. simpl. rewrite <- app_assoc. auto. }
  exists [role; first; InvokeEndpoint (stage2_request body)].
  split; [|right; right; eauto].
  destruct (invoke_endpoint w _ c (stage2_request body)); simpl;
    now rewrite <- !app_assoc.
Qed.

Lemma remote_chain_returns (w : World) (self : t) (tr tr' : trace)
    (nb : pyval * pyval) :
  remote_chain w self tr = (Returned nb, tr') ->
  exists body,
    tr' = tr ++ [AssumeRole (role_arn self) "RoleSessionName";
                 InvokeEndpoint (stage1_request w self);
                 InvokeEndpoint (stage2_request body)].
Proof.
  rewrite ChainFacts.remote_chain_steps. cbv zeta.
  destruct (assume_role w tr _ _) as [c|e]; [|discriminate].
  destruct (invoke_endpoint w _ c (stage1_request w self)) as [outp|e];
    [|discriminate].
  destruct (process_embeddings w outp) as [emb|e]; [|discriminate].
  destruct (json_dumps w _) as [body|e]; [|discriminate].
  destruct (invoke_endpoint w _ c (stage2_request body)); [|discriminate].
  intros [= _ <-]. exists body. now rewrite <- !app_assoc.
Qed.

Lemma invoke_model_returned (w : World) (self : t) (tr tr' : trace)
    (v : dict_or (list result_row)) :
  invoke_model w self tr = (Returned v, tr') ->
  length (img_id_list self) <= batch_size self
  /\ exists nb df,
       remote_chain w self tr = (Returned nb, tr')
       /\ shape (df_chunk self) (fst nb) (snd nb) = Returned df
       /\ v = IsFrame df.
Proof.
  intros H.
  assert (S : length (img_id_list self) <= batch_size self).
  { unfold invoke_model in H.
    destruct (Nat.ltb_spec (batch_size self) (length (img_id_list self)));
      [discriminate H|lia]. }
  split; [exact S|].
  rewrite ChainFacts.invoke_model_after_chain in H by exact S.
  destruct (remote_chain w self tr) as [[nb|e] t1].
  - destruct (shape _ _ _) as [df|e] eqn:Sh; [|discriminate H].
    injection H as <- <-. now exists nb, df.
  - destruct (is_NoCredentialsError e); [discriminate H|].
    destruct (is_Exception e); discriminate H.
Qed.

Lemma shape_lists_in (chunk : DataFrame) (ids dists : list (list pyval))
    (x : result_row) :
  In x (flat_map (Shaper.cross chunk) (combine ids dists))
  <-> exists r a b nd,
        In r chunk /\ In (a, b) (combine ids dists) /\ In nd (combine a b)
        /\ x = Shaper.emit r nd.
Proof.
  rewrite in_flat_map. split.
  - intros ([a b] & Hab & Hx). unfold Shaper.cross in Hx.
    apply in_flat_map in Hx. destruct Hx as (r & Hr & Hx).
    apply in_map_iff in Hx. destruct Hx as (nd & <- & Hnd).
    now exists r, a, b, nd.
  - intros (r & a & b & nd & Hr & Hab & Hnd & ->). exists (a, b).
    split; [exact Hab|]. unfold Shaper.cross. apply in_flat_map.
    exists r. split; [exact Hr|]. now apply in_map.
Qed.

End ChainMore.

(** X5.  One call of [invoke_model] makes at most three remote calls and
    always in the same order: the role request, the embeddings endpoint
    with the prompt's text, the neighbour endpoint.  It appends them to the
    calls made before and never repeats one. *)
Theorem chain_makes_at_most_three_calls_in_order
    (w : World) (self : InvokeModel.t) (tr : trace) :
  let role := AssumeRole (InvokeModel.role_arn self) "RoleSessionName" in
  let first := InvokeEndpoint (InvokeModel.stage1_request w self) in
  exists calls,
    snd (InvokeModel.invoke_model w self tr) = tr ++ calls
    /\ (calls = [] \/ calls = [role] \/ calls = [role; first]
        \/ exists body,
             calls = [role; first;
                      InvokeEndpoint (InvokeModel.stage2_request body)]).
Proof.
  intros role first. rewrite ChainFacts.invoke_model_calls.
  destruct (InvokeModel.batch_size self
            <? length (InvokeModel.img_id_list self))%nat.
  - exists []. rewrite app_nil_r. auto.
  - destruct (ChainMore.remote_chain_calls w self tr) as (calls & E & C).
    exists calls. split; [exact E|]. right. exact C.
Qed.

(** X6.  When [invoke_model] returns, the batch was within the size limit,
    all three remote calls were made, and the value is the frame shaped
    from the two decoded neighbour values: there is no partial result. *)
Theorem chain_returns_only_a_complete_result
    (w : World) (self : InvokeModel.t) (tr tr' : trace)
    (v : dict_or (list result_row))
    (Hret : InvokeModel.invoke_model w self tr = (Returned v, tr')) :
  length (InvokeModel.img_id_list self) <= InvokeModel.batch_size self
  /\ exists body ids dists df,
       tr' = tr ++ [AssumeRole (InvokeModel.role_arn self) "RoleSessionName";
                    InvokeEndpoint (InvokeModel.stage1_request w self);
                    InvokeEndpoint (InvokeModel.stage2_request body)]
       /\ InvokeModel.remote_chain w self tr = (Returned (ids, dists), tr')
       /\ InvokeModel.shape (InvokeModel.df_chunk self) ids dists = Returned df
       /\ v = IsFrame df.
Proof.
  destruct (ChainMore.invoke_model_returned _ _ _ _ _ Hret)
    as (S & [ids dists] & df & C & Sh & ->).
  split; [exact S|].
  destruct (ChainMore.remote_chain_returns _ _ _ _ _ C) as (body & ->).
  now exists body, ids, dists, df.
Qed.

(** X7.  An exception outside the [Exception] hierarchy raised by the role
    request is not caught by either [except] clause: it leaves
    [invoke_model] as it is, without a FAILURE envelope. *)
Theorem chain_lets_non_exceptions_through
    (w : World) (self : InvokeModel.t) (tr : trace) (cls msg : string)
    (Hsize : length (InvokeModel.img_id_list self)
             <= InvokeModel.batch_size self)
    (Hrole : assume_role w tr (InvokeModel.role_arn self) "RoleSessionName"
             = Raised (NonException cls msg)) :
  InvokeModel.invoke_model w self tr
    = (Raised (NonException cls msg),
       tr ++ [AssumeRole (InvokeModel.role_arn self) "RoleSessionName"]).
Proof.
  rewrite ChainFacts.invoke_model_after_chain by exact Hsize.
  rewrite ChainFacts.remote_chain_steps. cbv zeta. now rewrite Hrole.
Qed.

(** X8.  When the first response evaluates to a dict without the key
    ['embeddings'], the chain raises the generic FAILURE envelope whose
    reason is "An error occurred: " and the [repr] of that key, and the
    neighbour endpoint is never called. *)
Theorem missing_embeddings_key_stops_the_chain
    (w : World) (self : InvokeModel.t) (tr : trace)
    (c : credentials) (body1 : string) (kv : list (string * pyval))
    (Hsize : length (InvokeModel.img_id_list self)
             <= InvokeModel.batch_size self)
    (Hrole : assume_role w tr (InvokeModel.role_arn self) "RoleSessionName"
             = Returned c)
    (Hfirst : invoke_endpoint w
                (tr ++ [AssumeRole (InvokeModel.role_arn self) "RoleSessionName"])
                c (InvokeModel.stage1_request w self)
              = Returned body1)
    (Heval : py_eval w (PStr body1) = Returned (PDict kv))
    (Hkey : dict_get kv "embeddings" = None) :
  InvokeModel.invoke_model w self tr
    = (Raised (Exception
                 (FAILURE ("An error occurred: "
                           ++ py_repr w (PStr "embeddings"))%string)),
       tr ++ [AssumeRole (InvokeModel.role_arn self) "RoleSessionName";
              InvokeEndpoint (InvokeModel.stage1_request w self)]).
Proof.
  rewrite ChainFacts.invoke_model_after_chain by exact Hsize.
  rewrite ChainFacts.remote_chain_steps. cbv zeta. rewrite Hrole, Hfirst.
  unfold InvokeModel.process_embeddings. rewrite Heval. simpl.
  rewrite Hkey. simpl. now rewrite <- app_assoc.
Qed.

(** X9.  The shaping loops are outside the [try]: when the remote chain
    returns but a neighbour value cannot be iterated, [invoke_model] raises
    the bare [TypeError] of [zip], not a FAILURE envelope. *)
Theorem non_iterable_neighbours_raise_bare_TypeError
    (w : World) (self : InvokeModel.t) (tr tr' : trace)
    (ids dists : pyval) (e : exc)
    (Hsize : length (InvokeModel.img_id_list self)
             <= InvokeModel.batch_size self)
    (Hchain : InvokeModel.remote_chain w self tr = (Returned (ids, dists), tr'))
    (Hiter : py_iter ids = Raised e
             \/ (exists l, py_iter ids = Returned l) /\ py_iter dists = Raised e) :
  InvokeModel.invoke_model w self tr = (Raised e, tr')
  /\ exc_class e = "TypeError".
Proof.
  rewrite ChainFacts.invoke_model_after_chain by exact Hsize.
  rewrite Hchain. simpl fst. simpl snd.
  assert (Z : py_zip ids dists = Raised e).
  { unfold py_zip. destruct Hiter as [-> | [(l & ->) ->]]; reflexivity. }
  unfold InvokeModel.shape. rewrite Z. simpl. split; [reflexivity|].
  destruct (ChainFacts.py_zip_raises _ _ _ Z) as (m & ->). reflexivity.
Qed.

(** X10.  On lists of lists the shaper's rows are exactly the rows of the
    batch combined with the paired (neighbour, distance) entries: a row is
    in the output if and only if its four columns are those of a batch row
    and its neighbour and distance stand at the same position of a paired
    id list and distance list. *)
Theorem shaper_rows_are_exactly_the_pairings
    (chunk : DataFrame) (ids dists : list (list pyval)) :
  exists out,
    InvokeModel.shape chunk (Shaper.lists ids) (Shaper.lists dists)
      = Returned out
    /\ forall x,
         In x out
         <-> exists r a b nd,
               In r chunk /\ In (a, b) (combine ids dists)
               /\ In nd (combine a b) /\ x = Shaper.emit r nd.
Proof.
  eexists. split; [apply ShaperFacts.shape_lists|].
  intros x. apply ChainMore.shape_lists_in.
Qed.

(** X11.  For a batch the partitioner emits with batch size 32 the size
    guard of [invoke_model] never fires: the chain always gets as far as
    requesting the role. *)
Theorem size_guard_never_fires_on_emitted_batches
    (w : World) (df chunk : DataFrame) (self : InvokeModel.t) (tr : trace)
    (Hin : In chunk (Partitioner.partition 32 df))
    (Hinit : InvokeModel.init chunk = Returned self) :
  exists rest,
    snd (InvokeModel.invoke_model w self tr)
      = tr ++ AssumeRole (InvokeModel.role_arn self) "RoleSessionName" :: rest.
Proof.
  assert (L : length chunk <= 32).
  { unfold Partitioner.partition in Hin. apply in_flat_map in Hin.
    destruct Hin as (g & _ & Hc).
    apply (PartitionerFacts.dfs_bounded 32 g); [lia|exact Hc]. }
  apply ChainFacts.init_inv in Hinit.
  destruct Hinit as (r & rest & code & _ & _ & ->).
  rewrite ChainFacts.invoke_model_calls.
  cbn [InvokeModel.batch_size InvokeModel.img_id_list]. rewrite length_map.
  destruct (Nat.ltb_spec 32 (length chunk)); [lia|].
  match goal with
  | |- context [InvokeModel.remote_chain w ?o tr] =>
      destruct (ChainMore.remote_chain_calls w o tr) as (calls & E & C)
  end.
  rewrite E. cbn [InvokeModel.role_arn] in *.
  destruct C as [->|[->|(body & ->)]]; eauto.
Qed.

(** ** Further properties of the orchestrator *)

Module RunFacts.
Import Py Pandas Main Pipeline.

Lemma for_each_app {S A} (body : A -> M S unit) (l1 l2 : list A) (s : S) :
  for_each (l1 ++ l2) body s
    = bind (for_each l1 body) (fun _ => for_each l2 body) s.
Proof.
  revert s. induction l1 as [|a l1 IH]; intros s; [reflexivity|].
  simpl. unfold bind in *.
  destruct (body a s) as [[u|e] s1]; [apply IH|reflexivity].
Qed.

Lemma for_each_flat_map {S A B} (g : A -> list B) (body : B -> M S unit)
    (l : list A) (s : S) :
  for_each (flat_map g l) body s = for_each l (fun x => for_each (g x) body) s.
Proof.
  revert s. induction l as [|a l IH]; intros s; [reflexivity|].
  simpl. rewrite for_each_app. unfold bind.
  destruct (for_each (g a) body s) as [[u|e] s1]; [apply IH|reflexivity].
Qed.

(** Two loop bodies that agree on the states where [Q] holds give the same
    loop from such a state, when the bodies keep [Q]. *)
Lemma for_each_ext_inv {S A} (Q : S -> Prop) (f g : A -> M S unit)
    (l : list A) :
  (forall x s, Q s -> f x s = g x s) ->
  (forall x s o s', g x s = (o, s') -> Q s -> Q s') ->
  forall s, Q s -> for_each l f s = for_each l g s.
Proof.
  intros E K. induction l as [|a l IH]; intros s Qs; [reflexivity|].
  simpl. unfold bind. rewrite (E a s Qs).
  destruct (g a s) as [[u|e] s1] eqn:G; [|reflexivity].
  apply IH. eapply K; eauto.
Qed.

Lemma flat_map_map {A B C} (f : A -> B) (g : B -> list C) (l : list A) :
  flat_map g (map f l) = flat_map (fun x => g (f x)) l.
Proof. induction l as [|a l IH]; simpl; [reflexivity|]. now rewrite IH. Qed.

Lemma flat_map_flat_map {A B C} (f : A -> list B) (g : B -> list C)
    (l : list A) :
  flat_map g (flat_map f l) = flat_map (fun x => flat_map g (f x)) l.
Proof.
  induction l as [|a l IH]; simpl; [reflexivity|].
  now rewrite flat_map_app, IH.
Qed.

Lemma extends_refl (s : state) : extends s s.
Proof.
  repeat split; [exists []|exists []]; now rewrite app_nil_r.
Qed.

Lemma extends_trans (a b c : state) : extends a b -> extends b c -> extends a c.
Proof.
  intros ((T1 & P1 & R1 & B1 & M1) & (r1 & O1) & (c1 & C1))
         ((T2 & P2 & R2 & B2 & M2) & (r2 & O2) & (c2 & C2)).
  split; [|split].
  - repeat split; congruence.
  - exists (r1 ++ r2). now rewrite O2, O1, app_assoc.
  - exists (c1 ++ c2). now rewrite C2, C1, app_assoc.
Qed.

Lemma invoke_model_extends (w : World) (self : InvokeModel.t) (tr : trace) :
  exists calls, snd (InvokeModel.invoke_model w self tr) = tr ++ calls.
Proof.
  rewrite ChainFacts.invoke_model_calls.
  destruct (_ <? _)%nat; [exists []; now rewrite app_nil_r|].
  destruct (ChainMore.remote_chain_calls w self tr) as (calls & E & _).
  eauto.
Qed.

Lemma process_chunk_extends (w : World) (chunk : DataFrame)
    (s s' : state) (o : outcome unit) :
  process_chunk w chunk s = (o, s') -> extends s s'.
Proof.
  unfold process_chunk, bind, lift, on_trace.
  destruct (InvokeModel.init chunk) as [obj|e];
    [|intros [= _ <-]; apply extends_refl].
  destruct (invoke_model_extends w obj (snd s)) as (calls & E).
  destruct (InvokeModel.invoke_model w obj (snd s)) as [[v|e] tr] eqn:Ei;
    simpl in E; subst tr.
  - destruct v as [d|df]; unfold append_combined, modify; intros [= _ <-];
      (split; [now repeat split|]; split; simpl; eauto).
  - intros [= _ <-]. split; [now repeat split|].
    split; simpl; [exists []; now rewrite app_nil_r|eauto].
Qed.

Lemma loops_extends (w : World) (df : DataFrame) (s s' : state)
    (o : outcome unit) :
  loops w df s = (o, s') -> extends s s'.
Proof.
  intros H.
  refine (MainFacts.for_each_keeps (extends s) _ _ _ s o s' H (extends_refl s)).
  intros pt s0 o0 s0'. cbv zeta.
  apply (MainFacts.for_each_keeps (extends s)). intros mp_id s1 o1 s1'.
  unfold group_loop, split. cbv zeta. unfold bind at 1. unfold bind at 1.
  unfold get. destruct (batch_size (fst s1) =? 0)%nat.
  - unfold raise. now intros [= _ <-].
  - unfold ret. apply (MainFacts.for_each_keeps (extends s)).
    intros c s2 o2 s2' P E. eapply extends_trans; [exact E|].
    eapply process_chunk_extends, P.
Qed.

(** What [predictions_body] does once the dataset is a frame. *)
Lemma predictions_body_frame (w : World) (df : DataFrame) (s : state) :
  get_files w = Returned (IsFrame (Table df)) ->
  predictions_body w s
    = match loops w df s with
      | (Raised e, s1) => (Raised e, s1)
      | (Returned _, s1) =>
          match to_csv w (dated_path w s1) (output_combined (fst s1)) with
          | Returned _ =>
              (Returned (ReturnedPath (dated_path w s1)),
               with_path s1 (dated_path w s1))
          | Raised e => (Raised e, with_path s1 (dated_path w s1))
          end
      end.
Proof.
  intros Hg. unfold predictions_body, bind at 1. unfold lift. rewrite Hg.
  unfold bind at 1. destruct (loops w df s) as [[u|e] s1]; [|reflexivity].
  unfold bind, get, set_file_path, modify, lift, ret, dated_path, with_path.
  simpl. now destruct (to_csv w _ _).
Qed.

Lemma get_predictions_returned (w : World) (s s' : state) (v : returned) :
  get_predictions w s = (Returned v, s') ->
  predictions_body w s = (Returned v, s').
Proof.
  unfold get_predictions, try_except.
  destruct (predictions_body w s) as [[v0|e] s1]; [now intros [= <- <-]|].
  destruct (is_Exception e); unfold raise; discriminate.
Qed.

(** A run that returns a path went through all the loops and wrote the
    file. *)
Lemma get_predictions_path (w : World) (s s' : state) (p : string) :
  get_predictions w s = (Returned (ReturnedPath p), s') ->
  exists df s1,
    get_files w = Returned (IsFrame (Table df))
    /\ loops w df s = (Returned tt, s1)
    /\ p = dated_path w s1
    /\ s' = with_path s1 p
    /\ to_csv w p (output_combined (fst s1)) = Returned tt.
Proof.
  intros H. apply get_predictions_returned in H.
  destruct (get_files w) as [[d|[|df]]|e] eqn:Hg.
  - revert H. unfold predictions_body, bind, lift, ret. rewrite Hg.
    discriminate.
  - revert H. unfold predictions_body, bind, lift, raise. rewrite Hg.
    discriminate.
  - rewrite (predictions_body_frame w df s Hg) in H.
    destruct (loops w df s) as [[[]|e] s1] eqn:El; [|discriminate H].
    destruct (to_csv w _ _) as [[]|e] eqn:Hc; [|discriminate H].
    injection H as <- <-. exists df, s1. repeat split; auto.
  - revert H. unfold predictions_body, bind, lift. rewrite Hg. discriminate.
Qed.

(** The batch size the loops read stays the one of the start. *)
Lemma process_chunk_batch_size (w : World) (B : nat) (chunk : DataFrame)
    (s s' : state) (o : outcome unit) :
  process_chunk w chunk s = (o, s') ->
  batch_size (fst s) = B -> batch_size (fst s') = B.
Proof.
  intros H E. apply process_chunk_extends in H.
  destruct H as ((_ & _ & _ & Hb & _) & _). congruence.
Qed.

Lemma loops_partition (w : World) (df : DataFrame) (s : state) :
  0 < batch_size (fst s) ->
  loops w df s
    = for_each (Partitioner.partition (batch_size (fst s)) df)
               (process_chunk w) s.
Proof.
  intros HB. set (B := batch_size (fst s)).
  set (Q := fun x : state => batch_size (fst x) = B).
  assert (KP : forall l (x : state) o x',
             for_each l (process_chunk w) x = (o, x') -> Q x -> Q x').
  { intros l. apply (MainFacts.for_each_keeps Q). intros c x o x' H.
    apply (process_chunk_batch_size w B c x x' o H). }
  unfold Partitioner.partition, Partitioner.groups, loops.
  rewrite flat_map_flat_map, for_each_flat_map.
  apply (for_each_ext_inv Q); [| |reflexivity].
  - intros pt x Qx. cbv zeta. rewrite flat_map_map, for_each_flat_map.
    apply (for_each_ext_inv Q); [| |exact Qx].
    + intros mp_id y Qy. unfold group_loop, split. cbv zeta.
      unfold bind at 1. unfold bind at 1. unfold get. unfold Q in Qy.
      rewrite Qy. destruct (Nat.eqb_spec B 0); [lia|reflexivity].
    + intros mp_id. apply KP.
  - intros pt x o x'. apply KP.
Qed.

Lemma role_requests_app (a b : trace) :
  role_requests (a ++ b) = role_requests a + role_requests b.
Proof. unfold role_requests. now rewrite filter_app, length_app. Qed.

(** A batch that is processed without an exception costs three remote
    calls, one of them a role request. *)
Lemma process_chunk_returned (w : World) (chunk : DataFrame)
    (s s' : state) (u : unit) :
  process_chunk w chunk s = (Returned u, s') ->
  role_requests (snd s') = role_requests (snd s) + 1
  /\ length (snd s') = length (snd s) + 3.
Proof.
  unfold process_chunk, bind, lift, on_trace.
  destruct (InvokeModel.init chunk) as [obj|e]; [|discriminate].
  destruct (InvokeModel.invoke_model w obj (snd s)) as [[v|e] tr] eqn:Ei;
    [|discriminate].
  destruct (ChainMore.invoke_model_returned _ _ _ _ _ Ei)
    as (_ & nb & df & C & _ & ->).
  destruct (ChainMore.remote_chain_returns _ _ _ _ _ C) as (body & ->).
  unfold append_combined, modify. intros [= _ <-]. simpl snd.
  rewrite role_requests_app, length_app. split; reflexivity.
Qed.

Lemma for_each_counts {S A} (f : S -> nat) (k : nat) (body : A -> M S unit)
    (l : list A) :
  (forall x s u s', body x s = (Returned u, s') -> f s' = f s + k) ->
  forall s u s', for_each l body s = (Returned u, s') ->
                 f s' = f s + k * length l.
Proof.
  intros H. induction l as [|a l IH]; intros s u s'; simpl.
  - unfold ret. intros [= _ <-]. lia.
  - unfold bind. destruct (body a s) as [[v|e] s1] eqn:Ea; [|discriminate].
    intros E. rewrite (IH _ _ _ E), (H _ _ _ _ Ea). lia.
Qed.

Lemma with_path_extends (s : state) (p : string) : extends s (with_path s p).
Proof.
  split; [now repeat split|].
  split; simpl; exists []; now rewrite app_nil_r.
Qed.

Lemma predictions_body_extends (w : World) (s s' : state)
    (o : outcome returned) :
  predictions_body w s = (o, s') -> extends s s'.
Proof.
  destruct (get_files w) as [[d|[|df]]|e] eqn:Hg.
  - unfold predictions_body, bind, lift, ret. rewrite Hg.
    intros [= _ <-]. apply extends_refl.
  - unfold predictions_body, bind, lift, raise. rewrite Hg.
    intros [= _ <-]. apply extends_refl.
  - rewrite (predictions_body_frame w df s Hg).
    destruct (loops w df s) as [[u|e] s1] eqn:El.
    + apply loops_extends in El.
      destruct (to_csv w _ _); intros [= _ <-];
        (eapply extends_trans; [exact El|apply with_path_extends]).
    + intros [= _ <-]. eapply loops_extends, El.
  - unfold predictions_body, bind, lift. rewrite Hg.
    intros [= _ <-]. apply extends_refl.
Qed.

Lemma get_predictions_extends (w : World) (s s' : state)
    (o : outcome returned) :
  get_predictions w s = (o, s') -> extends s s'.
Proof.
  unfold get_predictions, try_except.
  destruct (predictions_body w s) as [[v|e] s1] eqn:Eb;
    apply predictions_body_extends in Eb.
  - now intros [= _ <-].
  - destruct (is_Exception e); unfold raise; now intros [= _ <-].
Qed.

End RunFacts.

(** X13.  With a positive batch size the nested loops of
    [get_predictions] are one loop over the batches of the partition, in
    emission order: each batch is processed after the one before it, and
    the first batch that raises ends the loop. *)
Theorem loops_process_the_partition_in_order
    (w : World) (df : DataFrame) (s : Main.state)
    (HB : 0 < Main.batch_size (fst s)) :
  Main.loops w df s
    = Py.for_each (Partitioner.partition (Main.batch_size (fst s)) df)
                  (Main.process_chunk w) s.
Proof. now apply RunFacts.loops_partition. Qed.

(** X14.  A dataset that has its columns and no row builds no object and
    makes no remote call: when the file can be written, the run writes the
    combined result as it stood to the dated file and returns that path.
    The frame without columns, which is what the S3 handler gives when it
    read no file, fails at the first column access instead: the run raises
    the FAILURE envelope of the [KeyError] on product_type, with nothing
    written and the object unchanged. *)
Theorem empty_frame_writes_and_columnless_frame_fails
    (w : World) (s : Main.state) :
  (get_files w = Returned (IsFrame (Table [])) ->
   to_csv w (Pipeline.dated_path w s) (Main.output_combined (fst s))
     = Returned tt ->
   Main.get_predictions w s
     = (Returned (Main.ReturnedPath (Pipeline.dated_path w s)),
        Pipeline.with_path s (Pipeline.dated_path w s)))
  /\ (get_files w = Returned (IsFrame Columnless) ->
      Main.get_predictions w s
        = (Raised (Exception (FAILURE (py_repr w (PStr "product_type")))), s)).
Proof.
  split.
  - intros Hfiles Hcsv. unfold Main.get_predictions, Py.try_except.
    rewrite (RunFacts.predictions_body_frame w [] s Hfiles).
    unfold Main.loops. simpl. unfold Py.ret. now rewrite Hcsv.
  - intros Hfiles.
    unfold Main.get_predictions, Py.try_except, Main.predictions_body,
      Py.bind, Py.lift, Py.raise.
    now rewrite Hfiles.
Qed.

(** X15.  When [get_predictions] returns a path, it is the output folder
    followed by "output-", the date and ".csv"; the file written under
    that name holds exactly the final combined result; the object's
    [file_path] is that path, and [execute] goes on to upload exactly this
    file and returns the uploader's answer. *)
Theorem returned_path_is_the_file_written_and_uploaded
    (w : World) (s s' : Main.state) (p : string)
    (Hret : Main.get_predictions w s = (Returned (Main.ReturnedPath p), s')) :
  p = (Main.output_path (fst s) ++ "output-" ++ today w ++ ".csv")%string
  /\ Main.file_path (fst s') = p
  /\ to_csv w p (Main.output_combined (fst s')) = Returned tt
  /\ Main.execute w s = (upload_file w p, s').
Proof.
  destruct (RunFacts.get_predictions_path _ _ _ _ Hret)
    as (df & s1 & Hg & Hl & Hp & Hs & Hc).
  apply RunFacts.loops_extends in Hl.
  destruct Hl as ((_ & Ho & _) & _).
  split; [|split; [|split]].
  - rewrite Hp. unfold Pipeline.dated_path. now rewrite Ho.
  - now rewrite Hs.
  - now rewrite Hs.
  - unfold Main.execute, Py.bind at 1. rewrite Hret.
    unfold Main.upload_s3, Py.bind, Py.get, Py.lift. now rewrite Hs.
Qed.

(** X16.  When [get_predictions] raises, [execute] raises the same
    exception from the same state and never reaches the upload; and every
    exception of the [Exception] hierarchy that leaves [get_predictions] is
    a FAILURE envelope. *)
Theorem failed_run_is_an_envelope_and_uploads_nothing
    (w : World) (s s' : Main.state) (e : exc)
    (Hraise : Main.get_predictions w s = (Raised e, s')) :
  Main.execute w s = (Raised e, s')
  /\ (is_Exception e = true -> exists why, e = Exception (FAILURE why)).
Proof.
  split.
  - unfold Main.execute, Py.bind. now rewrite Hraise.
  - revert Hraise. unfold Main.get_predictions, Py.try_except.
    destruct (Main.predictions_body w s) as [[v|e0] s1]; [discriminate|].
    destruct (is_Exception e0) eqn:I0; unfold Py.raise; intros [= <- _].
    + eauto.
    + congruence.
Qed.

(** X17.  A run only appends: whatever it returns or raises, the rows of
    the combined result and the remote calls recorded before it are still
    there, in front of what it added, and the object's settings are
    untouched; in particular [total_rows] is never updated. *)
Theorem run_only_appends_and_keeps_settings
    (w : World) (s s' : Main.state) (o : outcome Main.returned)
    (Hrun : Main.get_predictions w s = (o, s')) :
  Main.test_pts (fst s') = Main.test_pts (fst s)
  /\ Main.output_path (fst s') = Main.output_path (fst s)
  /\ Main.total_rows (fst s') = Main.total_rows (fst s)
  /\ Main.batch_size (fst s') = Main.batch_size (fst s)
  /\ Main.mps_mapping (fst s') = Main.mps_mapping (fst s)
  /\ (exists rows,
        Main.output_combined (fst s')
          = Main.output_combined (fst s) ++ rows)
  /\ (exists calls, snd s' = snd s ++ calls).
Proof.
  destruct (RunFacts.get_predictions_extends _ _ _ _ Hrun)
    as ((T & P & R & B & M) & Hrows & Hcalls).
  repeat split; auto.
Qed.

(** X18.  Whatever the world does, a run that starts without a tagged row
    ends without one: no failure of a batch is ever recorded as a row with
    the error column. *)
Theorem run_never_tags_a_row
    (w : World) (s s' : Main.state) (o : outcome Main.returned)
    (Hrun : Main.get_predictions w s = (o, s'))
    (Hclean : Main.clean s) :
  Main.clean s'.
Proof. exact (MainFacts.no_row_is_ever_tagged w s s' o Hrun Hclean). Qed.

(** X19.  A run that returns a path has requested the role once for every
    batch of the partition and made exactly three remote calls per batch:
    credentials are never reused from one batch to the next. *)
Theorem completed_run_requests_the_role_once_per_batch
    (w : World) (df : DataFrame) (s s' : Main.state) (p : string)
    (Hfiles : get_files w = Returned (IsFrame (Table df)))
    (HB : 0 < Main.batch_size (fst s))
    (Hret : Main.get_predictions w s = (Returned (Main.ReturnedPath p), s')) :
  let batches := Partitioner.partition (Main.batch_size (fst s)) df in
  Pipeline.role_requests (snd s')
    = Pipeline.role_requests (snd s) + length batches
  /\ length (snd s') = length (snd s) + 3 * length batches.
Proof.
  intros batches.
  destruct (RunFacts.get_predictions_path _ _ _ _ Hret)
    as (df' & s1 & Hg & Hl & _ & Hs & _).
  rewrite Hfiles in Hg. injection Hg as <-.
  rewrite RunFacts.loops_partition in Hl by exact HB. fold batches in Hl.
  subst s'. simpl snd. split.
  - rewrite (RunFacts.for_each_counts
               (fun x : Main.state => Pipeline.role_requests (snd x)) 1
               (Main.process_chunk w) batches
               (fun c x u x' H => proj1 (RunFacts.process_chunk_returned _ _ _ _ _ H))
               _ _ _ Hl).
    lia.
  - apply (RunFacts.for_each_counts
             (fun x : Main.state => length (snd x)) 3
             (Main.process_chunk w) batches
             (fun c x u x' H => proj2 (RunFacts.process_chunk_returned _ _ _ _ _ H))
             _ _ _ Hl).
Qed.

(** ** Properties of the S3 handler *)

Module PyStrFacts.
Import PyStr.

Lemma append_cons (c : ascii) (a b : string) :
  (String c a ++ b)%string = String c (a ++ b)%string.
Proof. reflexivity. Qed.

Lemma append_nil (b : string) : (EmptyString ++ b)%string = b.
Proof. reflexivity. Qed.

Lemma split_nonempty (sep : ascii) (s : string) : split sep s <> [].
Proof.
  destruct s as [|c t]; simpl; [discriminate|].
  destruct (Ascii.eqb c sep); [discriminate|].
  destruct (split sep t); discriminate.
Qed.

Lemma split_no_slash (s : string) :
  no_slash s = true -> split "/"%char s = [s].
Proof.
  induction s as [|c t IH]; simpl; [reflexivity|].
  intros H. apply andb_true_iff in H. destruct H as [Hc Ht].
  apply negb_true_iff in Hc. rewrite Hc, (IH Ht). reflexivity.
Qed.

Lemma split_app_sep (sep : ascii) (a b : string) :
  split sep (a ++ String sep b)%string = split sep a ++ split sep b.
Proof.
  induction a as [|c a IH].
  - rewrite append_nil. simpl. now rewrite Ascii.eqb_refl.
  - rewrite append_cons. simpl. destruct (Ascii.eqb c sep).
    + now rewrite IH.
    + rewrite IH. destruct (split sep a) as [|p ps] eqn:E; [|reflexivity].
      now destruct (split_nonempty sep a).
Qed.

(** The last segment of a path is what follows its last ["/"]. *)
Lemma last_segment_after_slash (a name : string) :
  no_slash name = true ->
  last_segment (a ++ String "/"%char name)%string = name.
Proof.
  intros H. unfold last_segment.
  rewrite split_app_sep, (split_no_slash name H).
  now rewrite last_last.
Qed.

Lemma no_slash_app (a b : string) :
  no_slash (a ++ b)%string = no_slash a && no_slash b.
Proof.
  induction a as [|c a IH]; [reflexivity|].
  rewrite append_cons. simpl. rewrite IH. now rewrite andb_assoc.
Qed.

End PyStrFacts.

Module S3Facts.
Import Py S3FileHandler.

Lemma grown_nil (s : state) : grown s [] [] = s.
Proof.
  destruct s as [[] log]. unfold grown. simpl. now rewrite !app_nil_r.
Qed.

Lemma with_sheets_app (d : dataset) (r1 r2 : list DataFrame) :
  with_sheets (with_sheets d r1) r2 = with_sheets d (r1 ++ r2).
Proof.
  destruct r1 as [|x r1]; [reflexivity|].
  destruct r2 as [|y r2]; [now rewrite app_nil_r|].
  change (Table ((rows_of d ++ concat (x :: r1)) ++ concat (y :: r2))
          = Table (rows_of d ++ concat ((x :: r1) ++ y :: r2))).
  now rewrite concat_app, app_assoc.
Qed.

Lemma rows_of_with_sheets (d : dataset) (sheets : list DataFrame) :
  rows_of (with_sheets d sheets) = rows_of d ++ concat sheets.
Proof. destruct sheets; [now rewrite app_nil_r|reflexivity]. Qed.

Lemma grown_grown (s : state) (r1 r2 : list DataFrame)
    (c1 c2 : list s3_event) :
  grown (grown s r1 c1) r2 c2 = grown s (r1 ++ r2) (c1 ++ c2).
Proof.
  unfold grown. cbn [fst snd ingest_bucket folder_name local_file_path
                     backup_bucket backup_folder upload_bucket upload_folder
                     file_df].
  now rewrite with_sheets_app, app_assoc.
Qed.

Lemma process_object_skipped (s3 : S3) (k : string) (s : state) :
  PyStr.endswith (PyStr.last_segment k) ".csv" = false ->
  process_object s3 k s = (Returned tt, s).
Proof.
  intros H. unfold process_object, bind, get. cbv zeta. now rewrite H.
Qed.

Lemma process_object_done (s3 : S3) (k : string) (s : state) :
  PyStr.endswith (PyStr.last_segment k) ".csv" = true ->
  object_ok s3 (fst s) k ->
  process_object s3 k s
    = (Returned tt,
       grown s [object_rows s3 (fst s) k] (object_calls (fst s) k)).
Proof.
  intros H (Hd & (df & Hr) & Hc).
  unfold process_object, bind, get, call, lift, append_file_df, modify.
  cbv zeta. rewrite H. simpl. rewrite Hd, Hr. simpl. rewrite Hc.
  unfold grown, object_rows, object_calls. rewrite Hr. simpl.
  now rewrite <- app_assoc, app_nil_r.
Qed.

(** The loop over the listing when no object fails. *)
Lemma objects_loop_done (s3 : S3) (contents : list string) (s : state) :
  (forall k, In k (csv_keys contents) -> object_ok s3 (fst s) k) ->
  for_each contents (process_object s3) s
    = (Returned tt,
       grown s (map (object_rows s3 (fst s)) (csv_keys contents))
               (flat_map (object_calls (fst s)) (csv_keys contents))).
Proof.
  revert s. induction contents as [|k ks IH]; intros s Hok.
  - simpl. unfold ret. now rewrite grown_nil.
  - simpl for_each. unfold bind. unfold csv_keys in *. simpl filter in *.
    destruct (PyStr.endswith (PyStr.last_segment k) ".csv") eqn:E.
    + rewrite process_object_done; [|exact E|apply Hok; now left].
      rewrite IH.
      * rewrite grown_grown. reflexivity.
      * intros k' Hk'. apply (Hok k'). now right.
    + rewrite process_object_skipped by exact E. now apply IH.
Qed.

Lemma get_files_body_listed (s3 : S3) (s : state) (contents : list string) :
  list_objects_v2 s3 (ingest_bucket (fst s)) (folder_name (fst s))
    = Returned (Some contents) ->
  get_files_body s3 s
    = match for_each contents (process_object s3)
              (fst s, snd s ++ [ListObjectsV2 (ingest_bucket (fst s))
                                              (folder_name (fst s))]) with
      | (Returned _, s1) => (Returned (IsFrame (file_df (fst s1))), s1)
      | (Raised e, s1) => (Raised e, s1)
      end.
Proof.
  intros H. unfold get_files_body, bind at 1. unfold get. cbv zeta.
  unfold bind at 1. unfold call. rewrite H. unfold bind.
  now destruct (for_each contents _ _) as [[u|e] s1].
Qed.

Lemma get_files_wraps (w : World) (s3 : S3) (s s' : state) (e : exc) :
  get_files_body s3 s = (Raised e, s') ->
  get_files w s3 s
    = (if is_Exception e
       then Raised (Exception (FAILURE (py_str_exc w e)))
       else Raised e, s').
Proof.
  intros H. unfold get_files, try_except. rewrite H.
  now destruct (is_Exception e).
Qed.

Lemma get_files_body_frame (s3 : S3) (s s' : state)
    (v : dict_or dataset) :
  get_files_body s3 s = (Returned v, s') -> exists df, v = IsFrame df.
Proof.
  unfold get_files_body, bind at 1. unfold get. cbv zeta.
  unfold bind at 1. unfold call.
  destruct (list_objects_v2 s3 _ _) as [[contents|]|e]; try discriminate.
  unfold bind. destruct (for_each contents _ _) as [[u|e] s1];
    [|discriminate].
  unfold ret. intros [= <- _]. eauto.
Qed.

Lemma get_files_frame (w : World) (s3 : S3) (s s' : state)
    (v : dict_or dataset) :
  get_files w s3 s = (Returned v, s') -> exists df, v = IsFrame df.
Proof.
  unfold get_files, try_except.
  destruct (get_files_body s3 s) as [[v0|e] s1] eqn:Eb.
  - intros [= <- _]. eapply get_files_body_frame, Eb.
  - destruct (is_Exception e); unfold raise; discriminate.
Qed.

Lemma process_object_download_fails (s3 : S3) (k : string) (s : state)
    (e : exc) :
  PyStr.endswith (PyStr.last_segment k) ".csv" = true ->
  download_file s3 (ingest_bucket (fst s)) k
                (local_file_path (fst s) ++ PyStr.last_segment k)%string
    = Raised e ->
  process_object s3 k s
    = (Raised e,
       (fst s, snd s ++ [DownloadFile (ingest_bucket (fst s)) k
                           (local_file_path (fst s)
                            ++ PyStr.last_segment k)%string])).
Proof.
  intros Hk Hd. unfold process_object, bind, get, call. cbv zeta.
  rewrite Hk. simpl. now rewrite Hd.
Qed.

(** The loop stops at an object whose download fails. *)
Lemma objects_loop_download_fails (s3 : S3) (pre post : list string)
    (k : string) (s : state) (e : exc) :
  (forall k', In k' (csv_keys pre) -> object_ok s3 (fst s) k') ->
  PyStr.endswith (PyStr.last_segment k) ".csv" = true ->
  download_file s3 (ingest_bucket (fst s)) k
                (local_file_path (fst s) ++ PyStr.last_segment k)%string
    = Raised e ->
  for_each (pre ++ k :: post) (process_object s3) s
    = (Raised e,
       grown s (map (object_rows s3 (fst s)) (csv_keys pre))
               (flat_map (object_calls (fst s)) (csv_keys pre)
                ++ [DownloadFile (ingest_bucket (fst s)) k
                      (local_file_path (fst s) ++ PyStr.last_segment k)%string])).
Proof.
  intros Hok Hk Hd. rewrite RunFacts.for_each_app. unfold bind at 1.
  rewrite (objects_loop_done s3 pre s Hok). simpl for_each.
  etransitivity.
  - apply MainFacts.bind_raised, process_object_download_fails;
      [exact Hk|exact Hd].
  - unfold grown. simpl. now rewrite app_assoc.
Qed.

Lemma get_files_no_contents (w : World) (s3 : S3) (s : state) :
  list_objects_v2 s3 (ingest_bucket (fst s)) (folder_name (fst s))
    = Returned None ->
  get_files w s3 s
    = (Raised
         (Exception
            (FAILURE
               (py_repr w
                  (envelope_dict
                     (FAILURE ("No files found in the folder: "
                               ++ folder_name (fst s))%string))))),
       (fst s,
        snd s ++ [ListObjectsV2 (ingest_bucket (fst s)) (folder_name (fst s))])).
Proof.
  intros Hlist.
  rewrite (get_files_wraps w s3 s
             (fst s, snd s ++ [ListObjectsV2 (ingest_bucket (fst s))
                                             (folder_name (fst s))])
             (Exception (FAILURE ("No files found in the folder: "
                                  ++ folder_name (fst s))%string))).
  - reflexivity.
  - unfold get_files_body, bind, get, call. cbv zeta. simpl.
    now rewrite Hlist.
Qed.

Lemma upload_file_accepted (w : World) (s3 : S3) (s : state) (path : string) :
  s3_upload_file s3 path (upload_bucket (fst s))
                 (upload_folder (fst s) ++ PyStr.last_segment path)%string
    = Returned tt ->
  upload_file w s3 path s
    = (Returned (mkEnvelope "SUCCESS"
                   ("File uploaded successfully to " ++ upload_bucket (fst s)
                    ++ "/" ++ upload_folder (fst s)
                    ++ PyStr.last_segment path)%string),
       (fst s,
        snd s ++ [UploadFile path (upload_bucket (fst s))
                    (upload_folder (fst s) ++ PyStr.last_segment path)%string])).
Proof.
  intros H. unfold upload_file, try_except, upload_file_body, bind, get, call.
  cbv zeta. simpl. now rewrite H.
Qed.

End S3Facts.

(** X20.  When the listing has contents and every object whose last path
    segment ends in ".csv" downloads, parses and copies without an
    exception, [get_files] returns the rows the object already held
    followed by the rows of those files in listing order.  Its calls are
    the listing and then, per such file and in the same order, one download
    and one backup copy; the other objects cause no call. *)
Theorem get_files_reads_every_csv_in_listing_order
    (w : World) (s3 : S3) (s : S3FileHandler.state) (contents : list string)
    (Hlist : list_objects_v2 s3 (S3FileHandler.ingest_bucket (fst s))
                             (S3FileHandler.folder_name (fst s))
             = Returned (Some contents))
    (Hok : forall k, In k (S3FileHandler.csv_keys contents) ->
                     S3FileHandler.object_ok s3 (fst s) k) :
  let sheets := map (S3FileHandler.object_rows s3 (fst s))
                    (S3FileHandler.csv_keys contents) in
  let rows := flat_map (S3FileHandler.object_rows s3 (fst s))
                       (S3FileHandler.csv_keys contents) in
  let calls := flat_map (S3FileHandler.object_calls (fst s))
                        (S3FileHandler.csv_keys contents) in
  let df := S3FileHandler.with_sheets (S3FileHandler.file_df (fst s)) sheets in
  S3FileHandler.get_files w s3 s
    = (Returned (IsFrame df),
       S3FileHandler.grown s sheets
         (ListObjectsV2 (S3FileHandler.ingest_bucket (fst s))
                        (S3FileHandler.folder_name (fst s)) :: calls))
  /\ rows_of df = rows_of (S3FileHandler.file_df (fst s)) ++ rows.
Proof.
  intros sheets rows calls df. split.
  - unfold S3FileHandler.get_files, Py.try_except.
    rewrite (S3Facts.get_files_body_listed s3 s contents Hlist).
    rewrite S3Facts.objects_loop_done by exact Hok.
    unfold S3FileHandler.grown. simpl. fold sheets calls df.
    now rewrite <- app_assoc.
  - unfold df, sheets, rows.
    now rewrite S3Facts.rows_of_with_sheets, flat_map_concat_map.
Qed.

(** X21.  When the listing has no ['Contents'], the exception raised for
    it inside the [try] is caught by the handler of the same function and
    wrapped again: the reason of the envelope that leaves [get_files] is
    the text of a whole envelope, "No files found in the folder: " and the
    folder name being its inner reason.  Only the listing call has been
    made. *)
Theorem empty_listing_fails_with_a_nested_envelope
    (w : World) (s3 : S3) (s : S3FileHandler.state)
    (Hlist : list_objects_v2 s3 (S3FileHandler.ingest_bucket (fst s))
                             (S3FileHandler.folder_name (fst s))
             = Returned None) :
  S3FileHandler.get_files w s3 s
    = (Raised
         (Exception
            (FAILURE
               (py_repr w
                  (envelope_dict
                     (FAILURE ("No files found in the folder: "
                               ++ S3FileHandler.folder_name (fst s))%string))))),
       (fst s,
        snd s ++ [ListObjectsV2 (S3FileHandler.ingest_bucket (fst s))
                                (S3FileHandler.folder_name (fst s))])).
Proof. now apply S3Facts.get_files_no_contents. Qed.

(** X22.  [get_files] never returns a dict: what it returns is always a
    frame, so a caller's [type(df) == dict] test cannot succeed; and every
    exception of the [Exception] hierarchy that leaves [get_files] or
    [upload_file] is a FAILURE envelope. *)
Theorem s3_handler_returns_frames_and_raises_envelopes
    (w : World) (s3 : S3) (s s' : S3FileHandler.state) :
  (forall v, S3FileHandler.get_files w s3 s = (Returned v, s') ->
             exists df, v = IsFrame df)
  /\ (forall e, S3FileHandler.get_files w s3 s = (Raised e, s') ->
                is_Exception e = true ->
                exists why, e = Exception (FAILURE why))
  /\ (forall path e,
        S3FileHandler.upload_file w s3 path s = (Raised e, s') ->
        is_Exception e = true ->
        exists why, e = Exception (FAILURE why)).
Proof.
  split; [|split].
  - intros v. apply S3Facts.get_files_frame.
  - intros e. unfold S3FileHandler.get_files, Py.try_except.
    destruct (S3FileHandler.get_files_body s3 s) as [[v|e0] s1];
      [discriminate|].
    destruct (is_Exception e0) eqn:I0; unfold Py.raise; intros [= <- _] I;
      [eauto|congruence].
  - intros path e. unfold S3FileHandler.upload_file, Py.try_except.
    destruct (S3FileHandler.upload_file_body s3 path s) as [[v|e0] s1];
      [discriminate|].
    destruct (is_Exception e0) eqn:I0; unfold Py.raise; intros [= <- _] I;
      [eauto|congruence].
Qed.

(** X23.  When the download of a ".csv" object fails, [get_files] raises
    the FAILURE envelope of that error at once: the files listed before it
    have already been read and copied to the backup bucket, the failed
    object is not copied, and the objects listed after it are not
    touched. *)
Theorem failed_download_stops_the_listing_loop
    (w : World) (s3 : S3) (s : S3FileHandler.state)
    (pre post : list string) (k : string) (e : exc)
    (Hlist : list_objects_v2 s3 (S3FileHandler.ingest_bucket (fst s))
                             (S3FileHandler.folder_name (fst s))
             = Returned (Some (pre ++ k :: post)))
    (Hok : forall k', In k' (S3FileHandler.csv_keys pre) ->
                      S3FileHandler.object_ok s3 (fst s) k')
    (Hcsv : PyStr.endswith (PyStr.last_segment k) ".csv" = true)
    (Hdown : download_file s3 (S3FileHandler.ingest_bucket (fst s)) k
               (S3FileHandler.local_file_path (fst s)
                ++ PyStr.last_segment k)%string
             = Raised e)
    (Hexc : is_Exception e = true) :
  S3FileHandler.get_files w s3 s
    = (Raised (Exception (FAILURE (py_str_exc w e))),
       S3FileHandler.grown s
         (map (S3FileHandler.object_rows s3 (fst s))
              (S3FileHandler.csv_keys pre))
         (ListObjectsV2 (S3FileHandler.ingest_bucket (fst s))
                        (S3FileHandler.folder_name (fst s))
          :: flat_map (S3FileHandler.object_calls (fst s))
                      (S3FileHandler.csv_keys pre)
          ++ [DownloadFile (S3FileHandler.ingest_bucket (fst s)) k
                (S3FileHandler.local_file_path (fst s)
                 ++ PyStr.last_segment k)%string])).
Proof.
  erewrite S3Facts.get_files_wraps.
  - rewrite Hexc. reflexivity.
  - rewrite (S3Facts.get_files_body_listed s3 s _ Hlist).
    rewrite (S3Facts.objects_loop_download_fails s3 pre post k _ e);
      [|exact Hok|exact Hcsv|exact Hdown].
    unfold S3FileHandler.grown. simpl. now rewrite <- app_assoc.
Qed.

(** X24.  A listing in which no object's last path segment ends in ".csv"
    (the folder placeholder alone, say) is not an error: [get_files]
    returns the rows the object already held, none for a fresh object, and
    makes no call besides the listing. *)
Theorem listing_without_csv_gives_no_rows
    (w : World) (s3 : S3) (s : S3FileHandler.state) (contents : list string)
    (Hlist : list_objects_v2 s3 (S3FileHandler.ingest_bucket (fst s))
                             (S3FileHandler.folder_name (fst s))
             = Returned (Some contents))
    (Hnone : Forall (fun k => PyStr.endswith (PyStr.last_segment k) ".csv"
                              = false) contents) :
  S3FileHandler.get_files w s3 s
    = (Returned (IsFrame (S3FileHandler.file_df (fst s))),
       (fst s,
        snd s ++ [ListObjectsV2 (S3FileHandler.ingest_bucket (fst s))
                                (S3FileHandler.folder_name (fst s))])).
Proof.
  assert (E : S3FileHandler.csv_keys contents = []).
  { clear Hlist. unfold S3FileHandler.csv_keys.
    induction Hnone as [|k ks Hk _ IH]; cbn [filter]; [reflexivity|].
    rewrite Hk. exact IH. }
  unfold S3FileHandler.get_files, Py.try_except.
  rewrite (S3Facts.get_files_body_listed s3 s contents Hlist).
  rewrite S3Facts.objects_loop_done; rewrite E; [|intros k []].
  cbn [flat_map map]. rewrite S3Facts.grown_nil. reflexivity.
Qed.

(** X25.  The backup copy is made from the folder name followed by the
    file name, not from the listed key: for a ".csv" object listed under
    any prefix, the download uses the listed key while the copy's source
    and destination keep only what follows the key's last "/". *)
Theorem backup_copies_from_the_flattened_key
    (s3 : S3) (s : S3FileHandler.state) (prefix name : string)
    (Hname : PyStr.no_slash name = true)
    (Hcsv : PyStr.endswith name ".csv" = true)
    (Hok : S3FileHandler.object_ok s3 (fst s)
             (prefix ++ String "/"%char name)%string) :
  let key := (prefix ++ String "/"%char name)%string in
  S3FileHandler.process_object s3 key s
    = (Returned tt,
       S3FileHandler.grown s [S3FileHandler.object_rows s3 (fst s) key]
         [DownloadFile (S3FileHandler.ingest_bucket (fst s)) key
            (S3FileHandler.local_file_path (fst s) ++ name)%string;
          CopyObject (S3FileHandler.backup_bucket (fst s))
            (S3FileHandler.backup_folder (fst s) ++ name)%string
            (S3FileHandler.ingest_bucket (fst s))
            (S3FileHandler.folder_name (fst s) ++ name)%string]).
Proof.
  intros key.
  assert (L : PyStr.last_segment key = name).
  { now apply PyStrFacts.last_segment_after_slash. }
  rewrite S3Facts.process_object_done; [|now rewrite L|exact Hok].
  unfold S3FileHandler.object_calls. now rewrite L.
Qed.

(** X26.  [upload_file] sends the file to the upload folder under the
    last segment of the local path.  When the client accepts it the answer
    is the SUCCESS envelope naming bucket and key; when the client raises
    an exception of the [Exception] hierarchy the answer is the FAILURE
    envelope of its message.  Either way the one upload call has been
    made. *)
Theorem upload_answers_with_an_envelope
    (w : World) (s3 : S3) (s : S3FileHandler.state) (path : string) :
  let key := (S3FileHandler.upload_folder (fst s)
              ++ PyStr.last_segment path)%string in
  let bucket := S3FileHandler.upload_bucket (fst s) in
  let after := (fst s, snd s ++ [UploadFile path bucket key]) in
  (s3_upload_file s3 path bucket key = Returned tt ->
   S3FileHandler.upload_file w s3 path s
     = (Returned (mkEnvelope "SUCCESS"
                    ("File uploaded successfully to " ++ bucket ++ "/"
                     ++ key)%string),
        after))
  /\ (forall e,
        s3_upload_file s3 path bucket key = Raised e ->
        is_Exception e = true ->
        S3FileHandler.upload_file w s3 path s
          = (Raised (Exception (FAILURE (py_str_exc w e))), after)).
Proof.
  intros key bucket after. split.
  - intros H. unfold S3FileHandler.upload_file, Py.try_except,
      S3FileHandler.upload_file_body, Py.bind, Py.get, S3FileHandler.call.
    cbv zeta. simpl. fold key bucket. now rewrite H.
  - intros e H I. unfold S3FileHandler.upload_file, Py.try_except,
      S3FileHandler.upload_file_body, Py.bind, Py.get, S3FileHandler.call.
    cbv zeta. simpl. fold key bucket. now rewrite H, I.
Qed.

(** X27.  With the S3 handler plugged in and a date without "/", a run
    from a fresh [Main] object that returns its path and whose upload the
    client accepts ends with the SUCCESS envelope for the key
    "output/output-<date>.csv" of bucket "ml-v1": the local folder is
    dropped and only the dated file name is kept. *)
Theorem pipeline_uploads_under_the_dated_key
    (w : World) (s3 : S3) (tr : trace) (s' : Main.state) (p : string)
    (Hday : PyStr.no_slash (today w) = true)
    (Hret : Main.get_predictions (Pipeline.connect w s3) (Main.init, tr)
            = (Returned (Main.ReturnedPath p), s'))
    (Hup : s3_upload_file s3 p "ml-v1"
             ("output/output-" ++ today w ++ ".csv")%string
           = Returned tt) :
  p = ("/home/ec2-user/ml/datasets/output/output-" ++ today w ++ ".csv")%string
  /\ Main.execute (Pipeline.connect w s3) (Main.init, tr)
     = (Returned
          (mkEnvelope "SUCCESS"
             ("File uploaded successfully to ml-v1/output/output-"
              ++ today w ++ ".csv")%string),
        s').
Proof.
  destruct (RunFacts.get_predictions_path _ _ _ _ Hret)
    as (df & s1 & _ & Hl & Hp & Hs & _).
  apply RunFacts.loops_extends in Hl. destruct Hl as ((_ & Ho & _) & _).
  assert (P : p = ("/home/ec2-user/ml/datasets/output"
                   ++ String "/"%char ("output-" ++ today w ++ ".csv"))%string).
  { rewrite Hp. unfold Pipeline.dated_path. rewrite <- Ho. reflexivity. }
  assert (L : PyStr.last_segment p = ("output-" ++ today w ++ ".csv")%string).
  { rewrite P. apply PyStrFacts.last_segment_after_slash.
    rewrite !PyStrFacts.no_slash_app, Hday. reflexivity. }
  split; [rewrite P; reflexivity|].
  unfold Main.execute, Py.bind at 1. rewrite Hret.
  unfold Main.upload_s3, Py.bind, Py.get, Py.lift.
  replace (Main.file_path (fst s')) with p by (now rewrite Hs).
  cbn [upload_file Pipeline.connect].
  rewrite S3Facts.upload_file_accepted.
  - cbn [fst S3FileHandler.upload_bucket S3FileHandler.upload_folder
         S3FileHandler.init]. rewrite L. reflexivity.
  - cbn [fst S3FileHandler.upload_bucket S3FileHandler.upload_folder
         S3FileHandler.init]. rewrite L. exact Hup.
Qed.

(** X28.  With the S3 handler plugged in, an input folder whose listing
    has no ['Contents'] ends the run before any batch: [get_predictions]
    raises a FAILURE envelope whose reason is the text of the handler's
    envelope, itself holding the text of the "No files found" envelope, and
    the object and the record of remote calls are as before. *)
Theorem pipeline_without_input_raises_nested_envelopes
    (w : World) (s3 : S3) (s : Main.state)
    (Hlist : list_objects_v2 s3 "ml-v1" "input/ingest/" = Returned None) :
  Main.get_predictions (Pipeline.connect w s3) s
    = (Raised
         (Exception
            (FAILURE
               (py_repr w
                  (envelope_dict
                     (FAILURE
                        (py_repr w
                           (envelope_dict
                              (FAILURE
                                 "No files found in the folder: input/ingest/")))))))),
       s).
Proof.
  unfold Main.get_predictions, Py.try_except, Main.predictions_body.
  unfold Py.bind at 1. unfold Py.lift. cbn [get_files Pipeline.connect].
  rewrite S3Facts.get_files_no_contents by exact Hlist. reflexivity.
Qed.

(** X29.  With the S3 handler plugged in, [get_predictions] never takes
    the early [return df] of line 61: whenever it returns, it returns the
    path it has stored in [file_path]. *)
Theorem pipeline_returns_only_paths
    (w : World) (s3 : S3) (s s' : Main.state) (v : Main.returned)
    (Hret : Main.get_predictions (Pipeline.connect w s3) s = (Returned v, s')) :
  exists p, v = Main.ReturnedPath p /\ Main.file_path (fst s') = p.
Proof.
  apply RunFacts.get_predictions_returned in Hret.
  destruct (get_files (Pipeline.connect w s3)) as [fetched|e] eqn:Hg.
  - assert (F : exists df, fetched = IsFrame df).
    { cbn [get_files Pipeline.connect] in Hg.
      destruct (S3FileHandler.get_files w s3 (S3FileHandler.init, []))
        as [o st] eqn:E.
      simpl in Hg. subst o. eapply S3Facts.get_files_frame, E. }
    destruct F as ([|df] & ->).
    { revert Hret. unfold Main.predictions_body, Py.bind, Py.lift, Py.raise.
      rewrite Hg. discriminate. }
    rewrite (RunFacts.predictions_body_frame _ df s Hg) in Hret.
    destruct (Main.loops _ df s) as [[u|e] s1]; [|discriminate Hret].
    destruct (to_csv _ _ _); [|discriminate Hret].
    injection Hret as <- <-. eexists. split; reflexivity.
  - revert Hret. unfold Main.predictions_body, Py.bind, Py.lift.
    rewrite Hg. discriminate.
Qed.


(** ** The further properties at concrete inputs *)

Lemma emitted_batches_are_never_empty_witness :
  0 < 2
  /\ In [Demo.sheet "D1" "000000" "img-d"] (Partitioner.partition 2 Demo.mixed)
  /\ [Demo.sheet "D1" "000000" "img-d"] <> [].
Proof.
  assert (HB : 0 < 2) by lia.
  assert (Hin : In [Demo.sheet "D1" "000000" "img-d"]
                   (Partitioner.partition 2 Demo.mixed)).
  { vm_compute. tauto. }
  split; [exact HB|]. split; [exact Hin|].
  exact (proj1 (emitted_batches_are_never_empty 2 Demo.mixed _ HB Hin)).
Defined.

Lemma batch_count_is_the_ceiling_witness :
  0 < 32
  /\ length (Partitioner.dfs 32 (Demo.uniform_chunk 35))
     = (length (Demo.uniform_chunk 35) + 32 - 1) / 32.
Proof.
  assert (HB : 0 < 32) by lia.
  split; [exact HB|].
  exact (batch_count_is_the_ceiling 32 (Demo.uniform_chunk 35) HB).
Defined.

Lemma frame_within_batch_size_is_one_batch_witness :
  0 < length (Demo.uniform_chunk 32)
  /\ length (Demo.uniform_chunk 32) <= 32
  /\ Partitioner.dfs 32 (Demo.uniform_chunk 32) = [Demo.uniform_chunk 32].
Proof.
  assert (H1 : 0 < length (Demo.uniform_chunk 32)) by (vm_compute; lia).
  assert (H2 : length (Demo.uniform_chunk 32) <= 32) by (vm_compute; lia).
  split; [exact H1|]. split; [exact H2|].
  exact (frame_within_batch_size_is_one_batch 32 (Demo.uniform_chunk 32) H1 H2).
Defined.

Lemma batches_are_consecutive_slices_witness :
  0 < 2
  /\ nth 1 (Partitioner.dfs 2 Demo.mixed) []
     = [Demo.sheet "C1" "000000" "img-c"; Demo.sheet "D1" "000000" "img-d"]
  /\ nth 2 (Partitioner.dfs 2 Demo.mixed) []
     = [Demo.sheet "E1" "111111" "img-e"].
Proof.
  assert (HB : 0 < 2) by lia.
  destruct (batches_are_consecutive_slices 2 Demo.mixed HB) as (F & L).
  split; [exact HB|]. split.
  - apply (F 1). vm_compute. lia.
  - apply L. vm_compute. lia.
Defined.

Lemma chain_returns_only_a_complete_result_witness :
  exists self v tr',
    InvokeModel.init (Demo.uniform_chunk 1) = Returned self
    /\ InvokeModel.invoke_model DemoRuns.three_ok self [] = (Returned v, tr')
    /\ length tr' = 3
    /\ exists df, v = IsFrame df /\ length df = 2.
Proof.
  eexists. eexists. eexists. split; [reflexivity|].
  match goal with
  | |- ?ret /\ _ => assert (Hret : ret) by (vm_compute; reflexivity)
  end.
  split; [exact Hret|].
  destruct (chain_returns_only_a_complete_result _ _ _ _ _ Hret)
    as (_ & body & ids & dists & df & Etr & _ & _ & Ev).
  split; [reflexivity|]. eexists. split; reflexivity.
Defined.

Lemma chain_lets_non_exceptions_through_witness :
  exists self,
    InvokeModel.init (Demo.uniform_chunk 1) = Returned self
    /\ length (InvokeModel.img_id_list self) <= InvokeModel.batch_size self
    /\ assume_role DemoRuns.interrupted []
         (InvokeModel.role_arn self) "RoleSessionName"
       = Raised (NonException "KeyboardInterrupt" "")
    /\ InvokeModel.invoke_model DemoRuns.interrupted self []
       = (Raised (NonException "KeyboardInterrupt" ""),
          [AssumeRole "arn:aws:iam::123456789012:role/MyEC2Role"
                      "RoleSessionName"]).
Proof.
  eexists. split; [reflexivity|].
  match goal with
  | |- ?size /\ _ => assert (H : size) by (simpl; lia)
  end.
  split; [exact H|]. split; [reflexivity|].
  exact (chain_lets_non_exceptions_through
           DemoRuns.interrupted _ [] "KeyboardInterrupt" "" H eq_refl).
Defined.

Lemma missing_embeddings_key_stops_the_chain_witness :
  exists self,
    InvokeModel.init (Demo.uniform_chunk 1) = Returned self
    /\ length (InvokeModel.img_id_list self) <= InvokeModel.batch_size self
    /\ py_eval DemoRuns.keyless (PStr Demo.embeddings_text) = Returned (PDict [])
    /\ dict_get (@nil (string * pyval)) "embeddings" = None
    /\ InvokeModel.invoke_model DemoRuns.keyless self []
       = (Raised (Exception (FAILURE "An error occurred: 'embeddings'")),
          [AssumeRole "arn:aws:iam::123456789012:role/MyEC2Role"
                      "RoleSessionName";
           InvokeEndpoint (InvokeModel.stage1_request DemoRuns.keyless self)]).
Proof.
  eexists. split; [reflexivity|].
  match goal with
  | |- ?size /\ _ => assert (H : size) by (simpl; lia)
  end.
  split; [exact H|]. split; [reflexivity|]. split; [reflexivity|].
  exact (missing_embeddings_key_stops_the_chain
           DemoRuns.keyless _ [] Demo.keys Demo.embeddings_text []
           H eq_refl eq_refl eq_refl eq_refl).
Defined.

Lemma non_iterable_neighbours_raise_bare_TypeError_witness :
  exists self tr',
    InvokeModel.init (Demo.uniform_chunk 1) = Returned self
    /\ length (InvokeModel.img_id_list self) <= InvokeModel.batch_size self
    /\ InvokeModel.remote_chain DemoRuns.null_neighbours self []
       = (Returned (PNone, PNone), tr')
    /\ py_iter PNone = Raised (TypeError "'NoneType' object is not iterable")
    /\ InvokeModel.invoke_model DemoRuns.null_neighbours self []
       = (Raised (TypeError "'NoneType' object is not iterable"), tr').
Proof.
  eexists. eexists. split; [reflexivity|].
  match goal with
  | |- ?size /\ _ => assert (H : size) by (simpl; lia)
  end.
  split; [exact H|].
  match goal with
  | |- ?chain /\ _ => assert (C : chain) by (vm_compute; reflexivity)
  end.
  split; [exact C|]. split; [reflexivity|].
  exact (proj1 (non_iterable_neighbours_raise_bare_TypeError
                  DemoRuns.null_neighbours _ [] _ PNone PNone
                  (TypeError "'NoneType' object is not iterable")
                  H C (or_introl eq_refl))).
Defined.

Lemma size_guard_never_fires_on_emitted_batches_witness :
  exists self,
    In [Demo.sheet "D1" "000000" "img-d"] (Partitioner.partition 32
         [Demo.sheet "D1" "000000" "img-d"])
    /\ InvokeModel.init [Demo.sheet "D1" "000000" "img-d"] = Returned self
    /\ exists rest,
         snd (InvokeModel.invoke_model Demo.no_credentials_world self [])
           = [] ++ AssumeRole (InvokeModel.role_arn self) "RoleSessionName"
                   :: rest.
Proof.
  eexists.
  assert (Hin : In [Demo.sheet "D1" "000000" "img-d"]
                   (Partitioner.partition 32 [Demo.sheet "D1" "000000" "img-d"])).
  { vm_compute. tauto. }
  split; [exact Hin|]. split; [reflexivity|].
  exact (size_guard_never_fires_on_emitted_batches
           Demo.no_credentials_world _ _ _ [] Hin eq_refl).
Defined.

Lemma loops_process_the_partition_in_order_witness :
  0 < Main.batch_size (fst (Main.init, @nil event))
  /\ Main.loops DemoRuns.three_ok Demo.three_batches (Main.init, [])
     = Py.for_each (Partitioner.partition 32 Demo.three_batches)
                   (Main.process_chunk DemoRuns.three_ok) (Main.init, []).
Proof.
  assert (HB : 0 < Main.batch_size (fst (Main.init, @nil event)))
    by (simpl; lia).
  split; [exact HB|].
  exact (loops_process_the_partition_in_order
           DemoRuns.three_ok Demo.three_batches (Main.init, []) HB).
Defined.

Lemma empty_frame_writes_and_columnless_frame_fails_witness :
  get_files DemoS3.healthy = Returned (IsFrame (Table []))
  /\ to_csv DemoS3.healthy
       (Pipeline.dated_path DemoS3.healthy (Main.init, []))
       (Main.output_combined (fst (Main.init, @nil event)))
     = Returned tt
  /\ Main.get_predictions DemoS3.healthy (Main.init, [])
     = (Returned (Main.ReturnedPath
                    "/home/ec2-user/ml/datasets/output/output-03-11-2026.csv"),
        Pipeline.with_path (Main.init, [])
          "/home/ec2-user/ml/datasets/output/output-03-11-2026.csv")
  /\ get_files DemoRuns.unfed = Returned (IsFrame Columnless)
  /\ Main.get_predictions DemoRuns.unfed (Main.init, [])
     = (Raised (Exception (FAILURE "'product_type'")), (Main.init, [])).
Proof.
  split; [reflexivity|]. split; [reflexivity|]. split.
  - exact (proj1 (empty_frame_writes_and_columnless_frame_fails
                    DemoS3.healthy (Main.init, [])) eq_refl eq_refl).
  - split; [reflexivity|].
    exact (proj2 (empty_frame_writes_and_columnless_frame_fails
                    DemoRuns.unfed (Main.init, [])) eq_refl).
Defined.

Lemma returned_path_is_the_file_written_and_uploaded_witness :
  Main.get_predictions DemoRuns.three_ok (Main.init, [])
    = (Returned (Main.ReturnedPath
                   "/home/ec2-user/ml/datasets/output/output-03-11-2026.csv"),
       snd (Main.get_predictions DemoRuns.three_ok (Main.init, [])))
  /\ Main.file_path
       (fst (snd (Main.get_predictions DemoRuns.three_ok (Main.init, []))))
     = "/home/ec2-user/ml/datasets/output/output-03-11-2026.csv"
  /\ Main.execute DemoRuns.three_ok (Main.init, [])
     = (upload_file DemoRuns.three_ok
          "/home/ec2-user/ml/datasets/output/output-03-11-2026.csv",
        snd (Main.get_predictions DemoRuns.three_ok (Main.init, []))).
Proof.
  assert (Hret :
    Main.get_predictions DemoRuns.three_ok (Main.init, [])
      = (Returned (Main.ReturnedPath
                     "/home/ec2-user/ml/datasets/output/output-03-11-2026.csv"),
         snd (Main.get_predictions DemoRuns.three_ok (Main.init, []))))
    by (vm_compute; reflexivity).
  destruct (returned_path_is_the_file_written_and_uploaded _ _ _ _ Hret)
    as (_ & F & _ & E).
  split; [exact Hret|]. split; [exact F|exact E].
Defined.

Lemma failed_run_is_an_envelope_and_uploads_nothing_witness :
  Main.get_predictions Demo.refused_second (Main.init, [])
    = (Raised (Exception
                 (FAILURE
                    "{'event_message': 'FAILURE', 'reason': 'Credentials could not be found'}")),
       snd (Main.get_predictions Demo.refused_second (Main.init, [])))
  /\ Main.execute Demo.refused_second (Main.init, [])
     = (Raised (Exception
                  (FAILURE
                     "{'event_message': 'FAILURE', 'reason': 'Credentials could not be found'}")),
        snd (Main.get_predictions Demo.refused_second (Main.init, []))).
Proof.
  assert (Hraise :
    Main.get_predictions Demo.refused_second (Main.init, [])
      = (Raised (Exception
                   (FAILURE
                      "{'event_message': 'FAILURE', 'reason': 'Credentials could not be found'}")),
         snd (Main.get_predictions Demo.refused_second (Main.init, []))))
    by (vm_compute; reflexivity).
  split; [exact Hraise|].
  exact (proj1 (failed_run_is_an_envelope_and_uploads_nothing _ _ _ _ Hraise)).
Defined.

Lemma run_only_appends_and_keeps_settings_witness :
  Main.get_predictions Demo.refused_second (Main.init, [])
    = Main.get_predictions Demo.refused_second (Main.init, [])
  /\ Main.total_rows
       (fst (snd (Main.get_predictions Demo.refused_second (Main.init, []))))
     = Main.total_rows (fst (Main.init, @nil event))
  /\ Main.batch_size
       (fst (snd (Main.get_predictions Demo.refused_second (Main.init, []))))
     = Main.batch_size (fst (Main.init, @nil event)).
Proof.
  split; [reflexivity|].
  destruct (run_only_appends_and_keeps_settings
              Demo.refused_second (Main.init, [])
              (snd (Main.get_predictions Demo.refused_second (Main.init, [])))
              (fst (Main.get_predictions Demo.refused_second (Main.init, [])))
              (surjective_pairing _))
    as (_ & _ & R & B & _).
  split; [exact R|exact B].
Defined.

Lemma run_never_tags_a_row_witness :
  Main.clean (Main.init, [])
  /\ Main.clean (snd (Main.get_predictions Demo.refused_second (Main.init, []))).
Proof.
  assert (C : Main.clean (Main.init, [])) by constructor.
  split; [exact C|].
  exact (run_never_tags_a_row
           Demo.refused_second (Main.init, [])
           (snd (Main.get_predictions Demo.refused_second (Main.init, [])))
           (fst (Main.get_predictions Demo.refused_second (Main.init, [])))
           (surjective_pairing _) C).
Defined.

Lemma completed_run_requests_the_role_once_per_batch_witness :
  get_files DemoRuns.three_ok = Returned (IsFrame (Table Demo.three_batches))
  /\ 0 < Main.batch_size (fst (Main.init, @nil event))
  /\ Pipeline.role_requests
       (snd (snd (Main.get_predictions DemoRuns.three_ok (Main.init, []))))
     = 0 + length (Partitioner.partition 32 Demo.three_batches)
  /\ length (snd (snd (Main.get_predictions DemoRuns.three_ok (Main.init, []))))
     = 0 + 3 * length (Partitioner.partition 32 Demo.three_batches).
Proof.
  assert (HB : 0 < Main.batch_size (fst (Main.init, @nil event)))
    by (simpl; lia).
  assert (Hret :
    Main.get_predictions DemoRuns.three_ok (Main.init, [])
      = (Returned (Main.ReturnedPath
                     "/home/ec2-user/ml/datasets/output/output-03-11-2026.csv"),
         snd (Main.get_predictions DemoRuns.three_ok (Main.init, []))))
    by (vm_compute; reflexivity).
  split; [reflexivity|]. split; [exact HB|].
  exact (completed_run_requests_the_role_once_per_batch
           DemoRuns.three_ok Demo.three_batches (Main.init, []) _ _
           eq_refl HB Hret).
Defined.

Lemma get_files_reads_every_csv_in_listing_order_witness :
  list_objects_v2 DemoS3.full "ml-v1" "input/ingest/"
    = Returned (Some DemoS3.listing)
  /\ S3FileHandler.csv_keys DemoS3.listing
     = ["input/ingest/a.csv"; "input/ingest/b.csv"]
  /\ (forall k, In k (S3FileHandler.csv_keys DemoS3.listing) ->
                S3FileHandler.object_ok DemoS3.full S3FileHandler.init k)
  /\ fst (S3FileHandler.get_files DemoS3.healthy DemoS3.full
            (S3FileHandler.init, []))
     = Returned (IsFrame (Table (DemoS3.sheet_a ++ DemoS3.sheet_b)))
  /\ snd (snd (S3FileHandler.get_files DemoS3.healthy DemoS3.full
                 (S3FileHandler.init, [])))
     = [ListObjectsV2 "ml-v1" "input/ingest/";
        DownloadFile "ml-v1" "input/ingest/a.csv"
                     "/home/ec2-user/ml/datasets/input/a.csv";
        CopyObject "ml-backup" "backup_input/a.csv" "ml-v1" "input/ingest/a.csv";
        DownloadFile "ml-v1" "input/ingest/b.csv"
                     "/home/ec2-user/ml/datasets/input/b.csv";
        CopyObject "ml-backup" "backup_input/b.csv" "ml-v1" "input/ingest/b.csv"].
Proof.
  assert (Hok : forall k, In k (S3FileHandler.csv_keys DemoS3.listing) ->
                 S3FileHandler.object_ok DemoS3.full S3FileHandler.init k).
  { intros k Hk. vm_compute in Hk.
    destruct Hk as [<-|[<-|[]]]; (split; [reflexivity|]);
      (split; [eexists; reflexivity|reflexivity]). }
  split; [reflexivity|]. split; [reflexivity|]. split; [exact Hok|].
  rewrite (proj1 (get_files_reads_every_csv_in_listing_order
                    DemoS3.healthy DemoS3.full (S3FileHandler.init, [])
                    DemoS3.listing eq_refl Hok)).
  split; reflexivity.
Defined.

Lemma empty_listing_fails_with_a_nested_envelope_witness :
  list_objects_v2 DemoS3.bare "ml-v1" "input/ingest/" = Returned None
  /\ S3FileHandler.get_files DemoS3.healthy DemoS3.bare (S3FileHandler.init, [])
     = (Raised
          (Exception
             (FAILURE
                "{'event_message': 'FAILURE', 'reason': 'No files found in the folder: input/ingest/'}")),
        (S3FileHandler.init, [ListObjectsV2 "ml-v1" "input/ingest/"])).
Proof.
  split; [reflexivity|].
  exact (empty_listing_fails_with_a_nested_envelope
           DemoS3.healthy DemoS3.bare (S3FileHandler.init, []) eq_refl).
Defined.

Lemma failed_download_stops_the_listing_loop_witness :
  DemoS3.listing
    = ["input/ingest/"; "input/ingest/a.csv"; "input/ingest/notes.txt"]
      ++ "input/ingest/b.csv" :: []
  /\ fst (S3FileHandler.get_files DemoS3.healthy DemoRuns.broken_download
            (S3FileHandler.init, []))
     = Raised
         (Exception
            (FAILURE
               "An error occurred (404) when calling the HeadObject operation: Not Found"))
  /\ snd (snd (S3FileHandler.get_files DemoS3.healthy DemoRuns.broken_download
                 (S3FileHandler.init, [])))
     = [ListObjectsV2 "ml-v1" "input/ingest/";
        DownloadFile "ml-v1" "input/ingest/a.csv"
                     "/home/ec2-user/ml/datasets/input/a.csv";
        CopyObject "ml-backup" "backup_input/a.csv" "ml-v1" "input/ingest/a.csv";
        DownloadFile "ml-v1" "input/ingest/b.csv"
                     "/home/ec2-user/ml/datasets/input/b.csv"].
Proof.
  assert (Hok : forall k,
             In k (S3FileHandler.csv_keys
                     ["input/ingest/"; "input/ingest/a.csv";
                      "input/ingest/notes.txt"]) ->
             S3FileHandler.object_ok DemoRuns.broken_download
                                     S3FileHandler.init k).
  { intros k Hk. vm_compute in Hk.
    destruct Hk as [<-|[]]; (split; [reflexivity|]);
      (split; [eexists; reflexivity|reflexivity]). }
  split; [reflexivity|].
  rewrite (failed_download_stops_the_listing_loop
             DemoS3.healthy DemoRuns.broken_download (S3FileHandler.init, [])
             ["input/ingest/"; "input/ingest/a.csv"; "input/ingest/notes.txt"]
             [] "input/ingest/b.csv"
             (OtherException "ClientError"
                "An error occurred (404) when calling the HeadObject operation: Not Found")
             eq_refl Hok eq_refl eq_refl eq_refl).
  split; reflexivity.
Defined.

Lemma listing_without_csv_gives_no_rows_witness :
  list_objects_v2 DemoRuns.no_csv "ml-v1" "input/ingest/"
    = Returned (Some ["input/ingest/"; "input/ingest/notes.txt"])
  /\ Forall (fun k => PyStr.endswith (PyStr.last_segment k) ".csv" = false)
            ["input/ingest/"; "input/ingest/notes.txt"]
  /\ S3FileHandler.get_files DemoS3.healthy DemoRuns.no_csv
       (S3FileHandler.init, [])
     = (Returned (IsFrame Columnless),
        (S3FileHandler.init, [ListObjectsV2 "ml-v1" "input/ingest/"])).
Proof.
  assert (Hnone :
    Forall (fun k => PyStr.endswith (PyStr.last_segment k) ".csv" = false)
           ["input/ingest/"; "input/ingest/notes.txt"]).
  { repeat constructor. }
  split; [reflexivity|]. split; [exact Hnone|].
  exact (listing_without_csv_gives_no_rows
           DemoS3.healthy DemoRuns.no_csv (S3FileHandler.init, [])
           _ eq_refl Hnone).
Defined.

Lemma backup_copies_from_the_flattened_key_witness :
  PyStr.no_slash "a.csv" = true
  /\ PyStr.endswith "a.csv" ".csv" = true
  /\ S3FileHandler.object_ok DemoS3.full S3FileHandler.init
       "input/ingest/2024/a.csv"
  /\ snd (snd (S3FileHandler.process_object DemoS3.full
                 "input/ingest/2024/a.csv" (S3FileHandler.init, [])))
     = [DownloadFile "ml-v1" "input/ingest/2024/a.csv"
                     "/home/ec2-user/ml/datasets/input/a.csv";
        CopyObject "ml-backup" "backup_input/a.csv" "ml-v1" "input/ingest/a.csv"].
Proof.
  assert (Hok : S3FileHandler.object_ok DemoS3.full S3FileHandler.init
                  ("input/ingest/2024" ++ String "/"%char "a.csv")%string).
  { split; [reflexivity|]. split; [eexists; reflexivity|reflexivity]. }
  split; [reflexivity|]. split; [reflexivity|]. split; [exact Hok|].
  change "input/ingest/2024/a.csv"
    with ("input/ingest/2024" ++ String "/"%char "a.csv")%string.
  rewrite (backup_copies_from_the_flattened_key
             DemoS3.full (S3FileHandler.init, []) "input/ingest/2024" "a.csv"
             eq_refl eq_refl Hok).
  reflexivity.
Defined.

Lemma pipeline_uploads_under_the_dated_key_witness :
  PyStr.no_slash (today DemoS3.healthy) = true
  /\ Main.get_predictions DemoRuns.fed (Main.init, [])
     = (Returned (Main.ReturnedPath
                    "/home/ec2-user/ml/datasets/output/output-03-11-2026.csv"),
        snd (Main.get_predictions DemoRuns.fed (Main.init, [])))
  /\ fst (Main.execute DemoRuns.fed (Main.init, []))
     = Returned
         (mkEnvelope "SUCCESS"
            "File uploaded successfully to ml-v1/output/output-03-11-2026.csv").
Proof.
  assert (Hret :
    Main.get_predictions DemoRuns.fed (Main.init, [])
      = (Returned (Main.ReturnedPath
                     "/home/ec2-user/ml/datasets/output/output-03-11-2026.csv"),
         snd (Main.get_predictions DemoRuns.fed (Main.init, []))))
    by (vm_compute; reflexivity).
  split; [reflexivity|]. split; [exact Hret|].
  unfold DemoRuns.fed.
  rewrite (proj2 (pipeline_uploads_under_the_dated_key
                    DemoS3.healthy DemoS3.full [] _ _ eq_refl Hret eq_refl)).
  reflexivity.
Defined.

Lemma pipeline_without_input_raises_nested_envelopes_witness :
  list_objects_v2 DemoS3.bare "ml-v1" "input/ingest/" = Returned None
  /\ Main.get_predictions DemoRuns.starved (Main.init, [])
     = (Raised
          (Exception
             (FAILURE
                (py_repr DemoS3.healthy
                   (envelope_dict
                      (FAILURE
                         (py_repr DemoS3.healthy
                            (envelope_dict
                               (FAILURE
                                  "No files found in the folder: input/ingest/")))))))),
        (Main.init, [])).
Proof.
  split; [reflexivity|].
  exact (pipeline_without_input_raises_nested_envelopes
           DemoS3.healthy DemoS3.bare (Main.init, []) eq_refl).
Defined.

Lemma pipeline_returns_only_paths_witness :
  Main.get_predictions DemoRuns.fed (Main.init, [])
    = (Returned (Main.ReturnedPath
                   "/home/ec2-user/ml/datasets/output/output-03-11-2026.csv"),
       snd (Main.get_predictions DemoRuns.fed (Main.init, [])))
  /\ exists p,
       Main.ReturnedPath
         "/home/ec2-user/ml/datasets/output/output-03-11-2026.csv"
         = Main.ReturnedPath p
       /\ Main.file_path
            (fst (snd (Main.get_predictions DemoRuns.fed (Main.init, []))))
          = p.
Proof.
  assert (Hret :
    Main.get_predictions DemoRuns.fed (Main.init, [])
      = (Returned (Main.ReturnedPath
                     "/home/ec2-user/ml/datasets/output/output-03-11-2026.csv"),
         snd (Main.get_predictions DemoRuns.fed (Main.init, []))))
    by (vm_compute; reflexivity).
  split; [exact Hret|].
  exact (pipeline_returns_only_paths DemoS3.healthy DemoS3.full _ _ _ Hret).
Defined.
